(** * The Pyro practicals (intro notebook and Bayesian neural network notebook)

    A verification development over the code cells of the two notebooks.

    - [PyFloat]: the scalar values the models compute with.
    - [Pyro]: the stochastic functions ([weather], [ice_cream_sales],
      [scale], [scale_obs], [guide]) and the two network classes as programs
      over the calls they make into Pyro and PyTorch; an interpreter that runs
      a program against any behaviour of the library and records each call,
      its result and each conditional the program evaluates.
    - [Analytic]: the arithmetic of the analytical posterior cell.
    - [Source]: the cells of the two notebooks as text, with the block
      structure, the exercises and the calls read off their lines.
    - [Sites], [Training], [Posterior], [Letters]: what a run samples and
      builds, the training cell, the exponent of the posterior, and the
      letters cell of the BNN notebook.

    Definitions come first, theorems after them. *)

From Stdlib Require Import Ascii String QArith Qabs Reals Qreals Lra.
From stdpp Require Import gmap strings list fin_maps.

(** ** Scalars *)

Module PyFloat.

(** A Python float or the item of a 0-dimensional tensor: a finite value, an
    infinity or a not-a-number. The notebooks only compare such values, take
    absolute values and hand them to the library, so finite values are kept as
    exact rationals (the literal [0.3] is [3/10]). *)
Inductive pyfloat : Type :=
| Fin (q : Q)
| PosInf
| NegInf
| NaN.
Arguments Fin q%_Q.

(** [x == y] on floats: a NaN equals nothing, itself included. *)
Definition float_eqb (x y : pyfloat) : bool :=
  match x, y with
  | Fin a, Fin b => Qeq_bool a b
  | PosInf, PosInf => true
  | NegInf, NegInf => true
  | _, _ => false
  end.

(** [x < y]: false as soon as one side is a NaN. *)
Definition float_ltb (x y : pyfloat) : bool :=
  match x, y with
  | NaN, _ | _, NaN => false
  | Fin a, Fin b => negb (Qle_bool b a)
  | NegInf, NegInf => false
  | NegInf, _ => true
  | PosInf, _ => false
  | Fin _, PosInf => true
  | Fin _, NegInf => false
  end.

(** [x > y]. *)
Definition float_gtb (x y : pyfloat) : bool := float_ltb y x.

(** [torch.abs] on a scalar. *)
Definition torch_abs (x : pyfloat) : pyfloat :=
  match x with
  | Fin q => Fin (Qabs q)
  | PosInf | NegInf => PosInf
  | NaN => NaN
  end.

(** [tensor.item()] of a 0-dimensional tensor is its scalar. *)
Definition item (x : pyfloat) : pyfloat := x.

End PyFloat.
Export PyFloat.

(** ** Programs over the library *)

Module Pyro.

(** A Python exception: its class and its argument. *)
Record exn : Type := Exn { exn_class : string; exn_arg : string }.

Definition KeyError (key : string) : exn := Exn "KeyError" key.

(** The distributions the notebooks construct. *)
Inductive dist (V : Type) : Type :=
| Bernoulli (probs : V)
| Normal (loc scale : V)
| Categorical (logits : V).
Arguments Bernoulli {V} probs.
Arguments Normal {V} loc scale.
Arguments Categorical {V} logits.

(** A prior as [BNN.__init__] writes it:
    [dist.Normal(loc, scale).expand(batch).to_event(event_dims)]. *)
Record prior : Type := Prior {
  prior_base : dist pyfloat;
  prior_expand : list Z;
  prior_to_event : nat
}.

(** The modules the two classes build. *)
Inductive torch_module : Type :=
| Linear (in_features out_features : Z)
| PyroLinear (in_features out_features : Z)
| ReLU
| LogSoftmax (dim : Z).

(** Library calls that return a value. [V] is the type of the values the
    library hands back (tensors, module objects, sizes). *)
Inductive libcall (V : Type) : Type :=
| pyro_sample (name : string) (d : dist V) (obs : option V)
| pyro_param (name : string) (init : option V)
| new_module (m : torch_module)
| module_call (m : V) (x : V)
| tensor_view (x : V) (shape : list Z)
| tensor_shape (x : V) (i : nat).
Arguments pyro_sample {V} name d obs.
Arguments pyro_param {V} name init.
Arguments new_module {V} m.
Arguments module_call {V} m x.
Arguments tensor_view {V} x shape.
Arguments tensor_shape {V} x i.

(** Library calls made for their effect. *)
Inductive libcmd (V : Type) : Type :=
| clear_param_store
| super_init
| set_pyro_sample (m : V) (attr : string) (p : prior)
| plate_enter (name : string) (size : V)
| plate_exit (name : string).
Arguments clear_param_store {V}.
Arguments super_init {V}.
Arguments set_pyro_sample {V} m attr p.
Arguments plate_enter {V} name size.
Arguments plate_exit {V} name.

(** The two forms of data-dependent control the notebooks' functions use:
    a conditional expression [a if c else b] and a short-circuit [c and d]. *)
Inductive branch_kind : Type := if_else | bool_and.

(** A function body: library calls in sequence, conditionals, and the
    exceptions Python itself raises ([Raise], for a failed subscript).
    [Branch] carries the name of the function whose source has the
    conditional. There is no constructor that catches: no cell of either
    notebook has a [try] (lemma [handling_keywords_absent]). *)
Inductive model (V A : Type) : Type :=
| Ret (a : A)
| Call (c : libcall V) (k : V -> model V A)
| Do (c : libcmd V) (k : model V A)
| Branch (owner : string) (kind : branch_kind) (c : bool) (t e : model V A)
| Raise (e : exn).
Arguments Ret {V A} a.
Arguments Call {V A} c k.
Arguments Do {V A} c k.
Arguments Branch {V A} owner kind c t e.
Arguments Raise {V A} e.

Fixpoint bind {V A B} (m : model V A) (f : A -> model V B) : model V B :=
  match m with
  | Ret a => f a
  | Call c k => Call c (fun v => bind (k v) f)
  | Do c k => Do c (bind k f)
  | Branch o kd c t e => Branch o kd c (bind t f) (bind e f)
  | Raise e => Raise e
  end.

#[export] Instance model_ret {V} : MRet (model V) := fun _ a => Ret a.
#[export] Instance model_bind {V} : MBind (model V) := fun _ _ f m => bind m f.

Definition call {V} (c : libcall V) : model V V := Call c Ret.
Definition exec {V} (c : libcmd V) : model V unit := Do c (Ret tt).

(** [pyro.sample(name, d)] and [pyro.sample(name, d, obs=v)]. *)
Definition sample {V} (name : string) (d : dist V) : model V V :=
  call (pyro_sample name d None).
Definition sample_obs {V} (name : string) (d : dist V) (obs : option V) : model V V :=
  call (pyro_sample name d obs).

(** [pyro.param(name, init)] and [pyro.param(name)]. *)
Definition param {V} (name : string) (init : V) : model V V :=
  call (pyro_param name (Some init)).
Definition param_get {V} (name : string) : model V V :=
  call (pyro_param name None).

(** [a if c else b], in the function [owner]. *)
Definition ifexp {V A} (owner : string) (c : bool) (a b : A) : model V A :=
  Branch owner if_else c (Ret a) (Ret b).

(** [c and d], in the function [owner]: [d] is evaluated only when [c] holds. *)
Definition and_ {V} (owner : string) (c : bool) (d : model V bool) : model V bool :=
  Branch owner bool_and c d (Ret false).

(** [table[key]] on a dict literal: [KeyError] when the key is missing. *)
Definition getitem {V A} (table : gmap string A) (key : string) : model V A :=
  match table !! key with
  | Some v => Ret v
  | None => Raise (KeyError key)
  end.

(** *** Running a program *)

(** What the library does at a call, from a state [S] of its own (random
    generator, parameter store, handler stack): a value or an exception. *)
Record library (V S : Type) : Type := Library {
  lib_call : libcall V -> S -> (exn + V) * S;
  lib_do : libcmd V -> S -> option exn * S
}.
Arguments Library {V S} lib_call lib_do.
Arguments lib_call {V S} l c s.
Arguments lib_do {V S} l c s.

(** One line of the record of a run. *)
Inductive entry (V : Type) : Type :=
| called (c : libcall V) (r : exn + V)
| did (c : libcmd V) (r : option exn)
| branched (owner : string) (kind : branch_kind) (c : bool).
Arguments called {V} c r.
Arguments did {V} c r.
Arguments branched {V} owner kind c.

Inductive outcome (A : Type) : Type :=
| Returned (a : A)
| Raised (e : exn).
Arguments Returned {A} a.
Arguments Raised {A} e.

Record result (V S A : Type) : Type := Result {
  log : list (entry V);
  out : outcome A;
  final : S
}.
Arguments Result {V S A} log out final.
Arguments log {V S A} r.
Arguments out {V S A} r.
Arguments final {V S A} r.

Definition logged {V S A} (x : entry V) (r : result V S A) : result V S A :=
  Result (x :: log r) (out r) (final r).

(** An exception of a library call ends the run with that exception. *)
Fixpoint run {V S A} (L : library V S) (m : model V A) (s : S) : result V S A :=
  match m with
  | Ret a => Result [] (Returned a) s
  | Call c k =>
      let '(r, s') := lib_call L c s in
      match r with
      | inl e => Result [called c r] (Raised e) s'
      | inr v => logged (called c r) (run L (k v) s')
      end
  | Do c k =>
      let '(r, s') := lib_do L c s in
      match r with
      | Some e => Result [did c r] (Raised e) s'
      | None => logged (did c r) (run L k s')
      end
  | Branch o kd c t e =>
      logged (branched o kd c) (run L (if c then t else e) s)
  | Raise e => Result [] (Raised e) s
  end.

(** *** The library as the notebook describes it *)

(** Modelled from the spec: the parameter store is the underlying library's
    (its code is not part of the notebooks). The intro notebook describes it:
    the first time [pyro.param] is called with a particular name, it stores
    its argument in the parameter store and then returns that value; after
    that, when it is called with that name, it returns the value from the
    parameter store regardless of any other arguments;
    [pyro.clear_param_store()] clears the store. [pyro.param(name)] without an
    initial value reads the store and fails on a missing name. *)
Definition param_store (name : string) (init : option pyfloat)
    (store : gmap string pyfloat) : (exn + pyfloat) * gmap string pyfloat :=
  match store !! name with
  | Some v => (inr v, store)
  | None =>
      match init with
      | Some v => (inr v, <[name := v]> store)
      | None => (inl (KeyError name), store)
      end
  end.

Definition clear_store (store : gmap string pyfloat) : gmap string pyfloat := ∅.

(** The store after a sequence of [pyro.param] calls, each a name and an
    initial value or none. *)
Fixpoint after_params (calls : list (string * option pyfloat))
    (store : gmap string pyfloat) : gmap string pyfloat :=
  match calls with
  | [] => store
  | (name, init) :: calls' => after_params calls' (snd (param_store name init store))
  end.

(** The state of the library in a session: the values its random generator
    will draw, how many were drawn, and the parameter store. *)
Record session : Type := Session {
  rng : nat -> pyfloat;
  drawn : nat;
  store : gmap string pyfloat
}.

(** A session whose generator draws the values of [l], then zeros. *)
Definition fresh (l : list pyfloat) : session :=
  Session (fun n => nth n l (Fin 0)) 0 ∅.

Definition Unsupported : exn := Exn "NotImplementedError" "".

(** Modelled from the spec: [pyro.sample] with no handler installed. An
    observed site (one given [obs], directly or by [pyro.condition]) always
    uses the given value; any other site draws from the generator. The scalar
    session has no tensors or modules of more than one element. *)
Definition pyro_call (c : libcall pyfloat) (s : session) : (exn + pyfloat) * session :=
  match c with
  | pyro_sample _ _ (Some v) => (inr v, s)
  | pyro_sample _ _ None => (inr (rng s (drawn s)), Session (rng s) (S (drawn s)) (store s))
  | pyro_param name init =>
      let '(r, st) := param_store name init (store s) in (r, Session (rng s) (drawn s) st)
  | _ => (inl Unsupported, s)
  end.

Definition pyro_do (c : libcmd pyfloat) (s : session) : option exn * session :=
  match c with
  | clear_param_store => (None, Session (rng s) (drawn s) (clear_store (store s)))
  | _ => (Some Unsupported, s)
  end.

Definition pyro : library pyfloat session := Library pyro_call pyro_do.

(** Modelled from the spec: [pyro.condition(model, data)], which the notebook
    describes as a higher-order function that takes a model and a dictionary
    of observations and returns a new model that has the same input and output
    signatures but always uses the given values at observed sample statements:
    a sample site whose name is in [data] becomes observed at that value. *)
Fixpoint condition {A} (m : model pyfloat A) (data : gmap string pyfloat) : model pyfloat A :=
  match m with
  | Ret a => Ret a
  | Call (pyro_sample name d obs) k =>
      Call (pyro_sample name d (match data !! name with Some v => Some v | None => obs end))
           (fun v => condition (k v) data)
  | Call c k => Call c (fun v => condition (k v) data)
  | Do c k => Do c (condition k data)
  | Branch o kd c t e => Branch o kd c (condition t data) (condition e data)
  | Raise e => Raise e
  end.

(** *** The intro notebook's functions *)

Definition weather : model pyfloat (string * pyfloat) :=
  cloudy ← sample "cloudy" (Bernoulli (Fin 0.3));
  weather_type ← ifexp "weather" (float_eqb (item cloudy) (Fin 1.0)) "cloudy" "sunny";
  loc ← getitem {[ "cloudy" := Fin 55.0; "sunny" := Fin 75.0 ]} weather_type;
  scale ← getitem {[ "cloudy" := Fin 10.0; "sunny" := Fin 15.0 ]} weather_type;
  temperature ← sample "temperature" (Normal loc scale);
  mret (weather_type, temperature).

Definition ice_cream_sales : model pyfloat (string * pyfloat) :=
  '(weather_type, temperature) ← weather;
  c ← and_ "ice_cream_sales" (String.eqb weather_type "sunny")
          (mret (float_gtb temperature (Fin 80.0)));
  expected_sales ← ifexp "ice_cream_sales" c (Fin 200) (Fin 50);
  ice_cream ← sample "ice_cream" (Normal expected_sales (Fin 10.0));
  mret (weather_type, ice_cream).

Definition scale : model pyfloat pyfloat :=
  weight ← sample "weight" (Normal (Fin 10) (Fin 1.0));
  measurement ← sample "measurement" (Normal weight (Fin 0.75));
  mret measurement.

Definition conditioned_scale : model pyfloat pyfloat :=
  condition scale {[ "measurement" := Fin 14 ]}.

Definition scale_obs : model pyfloat pyfloat :=
  weight ← sample "weight" (Normal (Fin 10) (Fin 1.0));
  measurement ← sample_obs "measurement" (Normal weight (Fin 0.75)) (Some (Fin 14));
  mret measurement.

Definition guide : model pyfloat pyfloat :=
  a ← param "a" (Fin 1);
  b ← param "b" (Fin 1);
  sample "weight" (Normal a (torch_abs b)).

(** The cells that create [new_param], initialise it again, clear the store
    and initialise it a third time; the three values they print. *)
Definition new_param_cells : model pyfloat (pyfloat * pyfloat * pyfloat) :=
  a1 ← param "new_param" (Fin 1);
  a2 ← param "new_param" (Fin 10);
  _ ← exec clear_param_store;
  a3 ← param "new_param" (Fin 10);
  mret (a1, a2, a3).

(** *** The two network classes *)

(** The attributes [__init__] sets on [self]. *)
Record net (V : Type) : Type := Net {
  fc1 : V;
  fc2 : V;
  relu : V;
  log_softmax : V
}.
Arguments Net {V} fc1 fc2 relu log_softmax.
Arguments fc1 {V} n.
Arguments fc2 {V} n.
Arguments relu {V} n.
Arguments log_softmax {V} n.

Section Networks.
Context {V : Type}.

Definition NN_init (input_size hidden_size output_size : Z) : model V (net V) :=
  _ ← exec super_init;
  fc1 ← call (new_module (Linear input_size hidden_size));
  fc2 ← call (new_module (Linear hidden_size output_size));
  relu ← call (new_module ReLU);
  log_softmax ← call (new_module (LogSoftmax 1));
  mret (Net fc1 fc2 relu log_softmax).

Definition NN_forward (self : net V) (x : V) : model V V :=
  x ← call (tensor_view x [-1; 28 * 28]%Z);
  h ← call (module_call (fc1 self) x);
  x ← call (module_call (relu self) h);
  x ← call (module_call (fc2 self) x);
  x ← call (module_call (log_softmax self) x);
  mret x.

Definition standard_normal : dist pyfloat := Normal (Fin 0) (Fin 1).

Definition BNN_init (input_size hidden_size output_size : Z) : model V (net V) :=
  _ ← exec super_init;
  fc1 ← call (new_module (PyroLinear input_size hidden_size));
  _ ← exec (set_pyro_sample fc1 "weight" (Prior standard_normal [hidden_size; input_size] 2));
  _ ← exec (set_pyro_sample fc1 "bias" (Prior standard_normal [hidden_size] 1));
  fc2 ← call (new_module (PyroLinear hidden_size output_size));
  _ ← exec (set_pyro_sample fc2 "weight" (Prior standard_normal [output_size; hidden_size] 2));
  _ ← exec (set_pyro_sample fc2 "bias" (Prior standard_normal [output_size] 1));
  relu ← call (new_module ReLU);
  log_softmax ← call (new_module (LogSoftmax 1));
  mret (Net fc1 fc2 relu log_softmax).

(** [forward] has no [return]: it yields [None], here [tt]. The block of
    [with pyro.plate(...)] stands between its enter and its exit; the
    plate's exit returns nothing, so it suppresses no exception of the
    block. *)
Definition BNN_forward (self : net V) (x : V) (y : option V) : model V unit :=
  x ← call (tensor_view x [-1; 28 * 28]%Z);
  h ← call (module_call (fc1 self) x);
  x ← call (module_call (relu self) h);
  x ← call (module_call (fc2 self) x);
  x ← call (module_call (log_softmax self) x);
  size ← call (tensor_shape x 0);
  _ ← exec (plate_enter "data" size);
  obs ← sample_obs "obs" (Categorical x) y;
  _ ← exec (plate_exit "data");
  mret tt.

End Networks.

(** *** What a run records *)

(** The conditionals of a run, in order: the function that owns each and its
    form. *)
Fixpoint branch_sites {V} (l : list (entry V)) : list (string * branch_kind) :=
  match l with
  | [] => []
  | branched o kd _ :: l' => (o, kd) :: branch_sites l'
  | _ :: l' => branch_sites l'
  end.

Definition is_if_else (x : string * branch_kind) : bool :=
  match snd x with if_else => true | bool_and => false end.

(** How many conditional expressions a run evaluated. *)
Definition conditional_count {V} (l : list (entry V)) : nat :=
  length (List.filter is_if_else (branch_sites l)).

(** The library calls of a run, without their results. *)
Fixpoint calls_made {V} (l : list (entry V)) : list (libcall V) :=
  match l with
  | [] => []
  | called c _ :: l' => c :: calls_made l'
  | _ :: l' => calls_made l'
  end.

Definition succeeded {V} (x : entry V) : Prop :=
  match x with
  | called _ (inl _) | did _ (Some _) => False
  | _ => True
  end.

Definition failed_with {V} (e : exn) (x : entry V) : Prop :=
  match x with
  | called _ (inl e') | did _ (Some e') => e' = e
  | _ => False
  end.

(** A run hands on the library's exceptions and adds none: when it returns,
    every library call it made returned; when it raises [e], the last thing
    recorded is a library call that raised this [e], and every call before it
    returned. *)
Definition propagates {V S A} (r : result V S A) : Prop :=
  match out r with
  | Returned _ => Forall succeeded (log r)
  | Raised e => ∃ l x, log r = l ++ [x] ∧ Forall succeeded l ∧ failed_with e x
  end.

(** No [Raise] on any path a run can take. *)
Fixpoint raise_free {V A} (m : model V A) : Prop :=
  match m with
  | Ret _ => True
  | Call _ k => ∀ v, raise_free (k v)
  | Do _ k => raise_free k
  | Branch _ _ c t e => raise_free (if c then t else e)
  | Raise _ => False
  end.

End Pyro.
Export Pyro.

(** ** The analytical posterior cell *)

Module Analytic.

(** [(0.75**2 * 10 + 14.) / (1 + 0.75**2)], in exact arithmetic. *)
Definition posterior_loc : Q := (0.75 ^ 2 * 10 + 14) / (1 + 0.75 ^ 2).

(** The argument of [np.sqrt] in the line that prints the scale:
    [0.75**2/(1 + 0.75**2)]. *)
Definition posterior_variance : Q := 0.75 ^ 2 / (1 + 0.75 ^ 2).

(** [np.sqrt], on the reals. *)
Definition np_sqrt (x : R) : R := sqrt x.

Definition posterior_scale : R := np_sqrt (Q2R posterior_variance).

End Analytic.
Export Analytic.

(** ** The notebooks as text *)

Module Source.

(** The double quote, and a string literal of the source in its quotes. *)
Definition dq : string := String (Ascii.ascii_of_nat 34) EmptyString.
Definition qs (s : string) : string := dq +:+ s +:+ dq.

(** A cell, by the lines of its source. A code cell is kept whole. A markdown
    cell is kept by its block-quote lines (those that start with [>]), which
    is where the notebooks set their exercises; its narrative is left out. *)
Inductive cell : Type :=
| markdown (quoted : list string)
| code (src : list string).

Definition code_lines (c : cell) : list string :=
  match c with
  | code src => src
  | markdown _ => []
  end.

Definition is_code (c : cell) : bool :=
  match c with
  | code _ => true
  | markdown _ => false
  end.

(** *** Lines *)

Definition space : Ascii.ascii := Ascii.ascii_of_nat 32.
Definition hash : Ascii.ascii := Ascii.ascii_of_nat 35.
Definition apostrophe : Ascii.ascii := Ascii.ascii_of_nat 39.
Definition quote : Ascii.ascii := Ascii.ascii_of_nat 34.

Definition is_quote (a : Ascii.ascii) : bool := Ascii.eqb a quote || Ascii.eqb a apostrophe.

(** Letters, digits and the underscore. *)
Definition is_word_char (a : Ascii.ascii) : bool :=
  let n := Ascii.nat_of_ascii a in
  ((48 <=? n) && (n <=? 57)) || ((65 <=? n) && (n <=? 90))
  || ((97 <=? n) && (n <=? 122)) || (n =? 95).

Fixpoint indent (l : string) : nat :=
  match l with
  | String a l' => if Ascii.eqb a space then S (indent l') else 0
  | EmptyString => 0
  end.

Fixpoint lstrip (l : string) : string :=
  match l with
  | String a l' => if Ascii.eqb a space then lstrip l' else l
  | EmptyString => EmptyString
  end.

Definition blank (l : string) : bool := String.eqb (lstrip l) "".

(** The line without its comment, the text of string literals overwritten by
    spaces: [q] is the quote of the literal the scan is inside of, if any. *)
Fixpoint code_part (q : option Ascii.ascii) (l : string) : string :=
  match l with
  | EmptyString => EmptyString
  | String a l' =>
      match q with
      | Some d =>
          if Ascii.eqb a d then String a (code_part None l')
          else String space (code_part q l')
      | None =>
          if Ascii.eqb a hash then EmptyString
          else String a (code_part (if is_quote a then Some a else None) l')
      end
  end.

(** A line that holds code: not blank, not a comment alone. *)
Definition statement (l : string) : bool := negb (blank (code_part None l)).

Fixpoint last_char (l : string) : option Ascii.ascii :=
  match l with
  | EmptyString => None
  | String a l' =>
      match last_char l' with
      | Some b => Some b
      | None => if Ascii.eqb a space then None else Some a
      end
  end.


(** The exercise marker the notebooks use. *)
Definition is_todo (l : string) : bool := String.prefix "## TODO" (lstrip l).

(** The words of a line: its maximal runs of letters, digits and underscores;
    [cur] is the run being read, backwards. *)
Fixpoint words_go (cur : string) (l : string) : list string :=
  match l with
  | EmptyString => if String.eqb cur "" then [] else [String.rev cur]
  | String a l' =>
      if is_word_char a then words_go (String a cur) l'
      else if String.eqb cur "" then words_go "" l'
      else String.rev cur :: words_go "" l'
  end.
Definition words (l : string) : list string := words_go "" l.

(** The words that start a compound statement. *)
Definition compound_keywords : list string :=
  ["def"; "class"; "for"; "while"; "if"; "elif"; "else"; "with"; "try"; "except";
   "finally"].

(** A line that opens a block: its code starts with one of these words and
    ends with a colon. *)
Definition opens_block (l : string) : bool :=
  match words (code_part None l), last_char (code_part None l) with
  | w :: _, Some a => existsb (String.eqb w) compound_keywords && Ascii.eqb a ":"%char
  | _, _ => false
  end.

(** The names a line calls: each run of word characters and dots that an
    opening parenthesis follows at once, in the code of the line. *)
Fixpoint callees_go (cur : string) (l : string) : list string :=
  match l with
  | EmptyString => []
  | String a l' =>
      if is_word_char a || Ascii.eqb a "."%char then callees_go (String a cur) l'
      else if Ascii.eqb a "("%char && negb (String.eqb cur "")
      then String.rev cur :: callees_go "" l'
      else callees_go "" l'
  end.
Definition callees (l : string) : list string := callees_go "" (code_part None l).


(** *** Blocks *)

(** The lines under a header indented by [n] that belong to its block: up to
    the first line that is not blank and not indented deeper. *)
Fixpoint block_body (n : nat) (ls : list string) : list string :=
  match ls with
  | [] => []
  | l :: ls' => if blank l || (n <? indent l) then l :: block_body n ls' else []
  end.

Fixpoint drop_blank_end (ls : list string) : list string :=
  match ls with
  | [] => []
  | l :: ls' =>
      match drop_blank_end ls' with
      | [] => if blank l then [] else [l]
      | rest => l :: rest
      end
  end.

(** The definition whose header starts with [head] (as in ["def weather("]):
    the header and its block, without the blank lines after it. *)
Fixpoint definition_of (head : string) (ls : list string) : list string :=
  match ls with
  | [] => []
  | l :: ls' =>
      if String.prefix head (lstrip l)
      then l :: drop_blank_end (block_body (indent l) ls')
      else definition_of head ls'
  end.

(** Lines of code of a definition: blank lines and comments not counted. *)
Definition code_line_count (ls : list string) : nat := length (List.filter statement ls).

(** *** What Python accepts and binds *)

Fixpoint next_statement (ls : list string) : option string :=
  match ls with
  | [] => None
  | l :: ls' => if statement l then Some l else next_statement ls'
  end.

(** Python's rule for a block: the line that opens it must be followed by a
    statement indented deeper; blank lines and comments are no statements. A
    cell that breaks the rule is refused as a whole (IndentationError:
    expected an indented block) and none of it runs. *)
Fixpoint suites_ok (ls : list string) : bool :=
  match ls with
  | [] => true
  | l :: ls' =>
      (if opens_block l
       then match next_statement ls' with
            | Some l' => indent l <? indent l'
            | None => false
            end
       else true)
      && suites_ok ls'
  end.

Definition accepted (c : cell) : bool := suites_ok (code_lines c).

(** The functions a cell defines at top level, each with its lines. *)
Fixpoint top_level_defs (ls : list string) : list (string * list string) :=
  match ls with
  | [] => []
  | l :: ls' =>
      if String.prefix "def " l
      then match words l with
           | _ :: name :: _ =>
               (name, l :: drop_blank_end (block_body 0 ls')) :: top_level_defs ls'
           | _ => top_level_defs ls'
           end
      else top_level_defs ls'
  end.

(** The functions bound after the cells ran in order: an accepted cell binds
    the functions it defines, the latest definition of a name first. *)
Fixpoint bound_functions (env : list (string * list string)) (cs : list cell)
    : list (string * list string) :=
  match cs with
  | [] => env
  | c :: cs' =>
      bound_functions
        (if accepted c then rev (top_level_defs (code_lines c)) ++ env else env) cs'
  end.

Inductive call_result : Type :=
| returns_None
| returns_a_value
| raises_NameError.

Definition has_return (ls : list string) : bool :=
  existsb (fun l => match words (code_part None l) with
                    | w :: _ => String.eqb w "return"
                    | [] => false
                    end) ls.

(** What calling [name] does once the notebook ran: a name no cell bound
    raises NameError; a function without a [return] statement returns None. *)
Definition call_after (nb : list cell) (name : string) : call_result :=
  match List.find (fun d => String.eqb (fst d) name) (bound_functions [] nb) with
  | None => raises_NameError
  | Some d => if has_return (snd d) then returns_a_value else returns_None
  end.

(** *** Exercises *)

Definition is_task (l : string) : bool := String.prefix "> **Task " l.

Fixpoint next_code (cs : list cell) : list string :=
  match cs with
  | [] => []
  | code src :: _ => src
  | markdown _ :: cs' => next_code cs'
  end.

(** Each numbered task with the code cell that follows it. *)
Fixpoint exercises (cs : list cell) : list (string * list string) :=
  match cs with
  | [] => []
  | markdown quoted :: cs' =>
      List.map (fun t => (t, next_code cs')) (List.filter is_task quoted) ++ exercises cs'
  | code _ :: cs' => exercises cs'
  end.

(** The cell is left for the student: it has the TODO marker. *)
Definition has_todo (ls : list string) : bool := existsb is_todo ls.

(** The cell holds the TODO marker and nothing else. *)
Definition only_todo (ls : list string) : bool :=
  has_todo ls && forallb (fun l => blank l || is_todo l) ls.

(** *** Exception handling and input/output by name *)


Definition all_code (nb : list cell) : list string := concat (List.map code_lines nb).


Definition all_callees (nb : list cell) : list string :=
  concat (List.map callees (all_code nb)).








(** *** The intro notebook *)

Module Intro.

(** Cell 3, [understood-midwest]. *)
Definition cell_3 : cell :=
  code
    ["import torch";
     "import pyro";
     "pyro.set_rng_seed(101)"].

(** Cell 6, [minute-smooth]. *)
Definition cell_6 : cell :=
  code
    ["loc = 0.   # mean zero";
     "scale = 1. # unit variance";
     "normal = torch.distributions.Normal(loc, scale) # create a normal distribution object";
     "x = normal.rsample() # draw a sample from N(0,1)";
     "print(" +:+ qs "sample: " +:+ ", x, type(x))# returns a pytorch tensor"].

(** Cell 8, [motivated-number]. *)
Definition cell_8 : cell :=
  code
    ["import pyro.distributions as dist";
     "";
     "x = pyro.sample(" +:+ qs "my_sample" +:+ ", pyro.distributions.Normal(loc, scale))";
     "print(x, type(x))"].

(** Cell 11, [leading-cliff]. *)
Definition cell_11 : cell :=
  code
    ["def weather():";
     "    " +:+ qs "Our Pyro model of the weather";
     "    ";
     "    # define cloudy as a random variable with a Bernoulli prior distribution";
     "    cloudy = pyro.sample('cloudy', dist.Bernoulli(0.3))";
     "    ";
     "    # define temperature as a random variable, through its conditional distribution with cloudy";
     "    weather_type = 'cloudy' if cloudy.item() == 1.0 else 'sunny'";
     "    loc = {'cloudy': 55.0, 'sunny': 75.0}[weather_type]";
     "    scale = {'cloudy': 10.0, 'sunny': 15.0}[weather_type]";
     "    temperature = pyro.sample('temperature', dist.Normal(loc, scale))";
     "    ";
     "    return weather_type, temperature";
     "";
     "for _ in range(3):";
     "    weather_type, temperature = weather()";
     "    print(" +:+ qs "The weather is: %s and the temperature is: %.2f" +:+ "%(weather_type, temperature.item()))"].

(** Cell 13, [unauthorized-sterling]. *)
Definition cell_13 : cell :=
  code
    ["def ice_cream_sales():";
     "    " +:+ qs "Another Pyro model";
     "    ";
     "    # define ice_cream as a random variable, through its conditional distribution with cloudy and temperature";
     "    weather_type, temperature = weather()";
     "    expected_sales = 200. if weather_type == 'sunny' and temperature > 80.0 else 50.";
     "    ice_cream = pyro.sample('ice_cream', pyro.distributions.Normal(expected_sales, 10.0))# number of ice cream sales";
     "    return weather_type, ice_cream";
     "";
     "print(ice_cream_sales())"].

(** Cell 15, [planned-authentication]. *)
Definition cell_15 : cell :=
  markdown
    ["> **Task 1**: draw 1,000 samples of `ice_cream` from the `ice_cream_sales` model, and plot separate histograms of the expected number of ice cream sales for sunny and cloudy days respectively."].

(** Cell 16, [numerous-occupation]. *)
Definition cell_16 : cell :=
  code
    ["import matplotlib.pyplot as plt";
     "";
     "## TODO: write some code here";
     ""].

(** Cell 18, [spread-brazil]. *)
Definition cell_18 : cell :=
  code
    ["def scale():";
     "    weight = pyro.sample(" +:+ qs "weight" +:+ ", dist.Normal(10, 1.0))";
     "    measurement = pyro.sample(" +:+ qs "measurement" +:+ ", dist.Normal(weight, 0.75))";
     "    return measurement";
     "print(scale())"].

(** Cell 20, [challenging-above]. *)
Definition cell_20 : cell :=
  code
    ["conditioned_scale = pyro.condition(scale, data={" +:+ qs "measurement" +:+ ": torch.tensor(14.)})"].

(** Cell 22, [planned-redhead]. *)
Definition cell_22 : cell :=
  code
    ["def scale_obs():  # equivalent to conditioned_scale above";
     "    weight = pyro.sample(" +:+ qs "weight" +:+ ", dist.Normal(10, 1.0))";
     "    measurement = pyro.sample(" +:+ qs "measurement" +:+ ", dist.Normal(weight, 0.75), obs=14.)";
     "    return measurement"].

(** Cell 24, [complex-volunteer]. *)
Definition cell_24 : cell :=
  code
    ["from pyro.infer.mcmc import MCMC";
     "from pyro.infer.mcmc.nuts import HMC";
     "";
     "hmc_kernel = HMC(conditioned_scale, step_size=0.9, num_steps=4)# defines a HMC kernel";
     "sampler = MCMC(hmc_kernel, # uses MCMC with HMC kernel";
     "               num_samples=1000, # generates 1000 samples";
     "               warmup_steps=50)# burn-in of 50 steps";
     "sampler.run()";
     "sampler.summary()"].

(** Cell 26, [bearing-applicant]. *)
Definition cell_26 : cell :=
  markdown
    ["> **Task 2**: plot the samples from the posterior distribution as a histogram below:"].

(** Cell 27, [conservative-ukraine]. *)
Definition cell_27 : cell :=
  code
    ["posterior = sampler.get_samples()";
     "print(type(posterior))# note, this is just a python dictionary!";
     "";
     "## TODO: write some code here";
     ""].

(** Cell 29, [lyric-richardson]. *)
Definition cell_29 : cell :=
  code
    ["def guide():";
     "    " +:+ qs "Defines an approximate distribution Q we will fit to the posterior";
     "    ";
     "    # here, we define Q as a normal distribution, with flexible (trainable) parameters a and b";
     "    a = pyro.param(" +:+ qs "a" +:+ ", torch.tensor(1.))";
     "    b = pyro.param(" +:+ qs "b" +:+ ", torch.tensor(1.))";
     "    return pyro.sample(" +:+ qs "weight" +:+ ", dist.Normal(a, torch.abs(b)))"].

(** Cell 32, [posted-belize]. *)
Definition cell_32 : cell :=
  code
    ["a = pyro.param(" +:+ qs "new_param" +:+ ", torch.tensor(1.))";
     "print(a, a.requires_grad)"].

(** Cell 34, [presidential-archive]. *)
Definition cell_34 : cell :=
  markdown
    ["> (Optional) **Extension Task 1**: show analytically that for the `scale` model, the posterior distribution is a Normal distribution and derive its mean and variance."].

(** Cell 35, [serious-sheriff]. *)
Definition cell_35 : cell :=
  code
    ["import numpy as np";
     "print(" +:+ qs "True analytical posterior parameters:" +:+ ")";
     "print(" +:+ qs "loc = " +:+ ", (0.75**2 * 10 + 14.) / (1 + 0.75**2))";
     "print(" +:+ qs "scale = " +:+ ", np.sqrt(0.75**2/(1 + 0.75**2)))"].

(** Cell 37, [concrete-valentine]. *)
Definition cell_37 : cell :=
  code
    ["a = pyro.param(" +:+ qs "new_param" +:+ ", torch.tensor(10.))# value of 10. is ignored (!)";
     "print(a, a.requires_grad)";
     "";
     "pyro.clear_param_store()";
     "a = pyro.param(" +:+ qs "new_param" +:+ ", torch.tensor(10.))";
     "print(a, a.requires_grad)"].

(** Cell 39, [pharmaceutical-simulation]. *)
Definition cell_39 : cell :=
  code
    ["from pyro.infer import SVI, Trace_ELBO";
     "from pyro.optim import SGD";
     "";
     "pyro.clear_param_store()";
     "svi = SVI(model=conditioned_scale,";
     "          guide=guide,";
     "          optim=SGD({" +:+ qs "lr" +:+ ": 0.001, " +:+ qs "momentum" +:+ ":0.1}),";
     "          loss=Trace_ELBO(num_particles=1))# num_particles is the number of MC samples used to estimate ELBO";
     "";
     "losses, a,b  = [], [], []";
     "num_steps = 2500";
     "for i in range(num_steps):";
     "    losses.append(svi.step())";
     "    a.append(pyro.param(" +:+ qs "a" +:+ ").item())";
     "    b.append(pyro.param(" +:+ qs "b" +:+ ").item())";
     "    ";
     "print('a = ', a[-1])";
     "print('b = ', b[-1])"].

(** Cell 40, [behind-district]. *)
Definition cell_40 : cell :=
  markdown
    ["> **Task 3**: plot the values of the ELBO, `a` and `b` as a function of training step.";
     "> **Task 4**: plot the posterior distribution by drawing samples from Q. Compare this to the posterior samples estimated from HMC above."].

(** Cell 42, [compatible-relations]. *)
Definition cell_42 : cell :=
  code
    ["## TODO: write some code here";
     ""].

(** Cell 46, [45f110ce]. *)
Definition cell_46 : cell :=
  code
    [].

Definition notebook : list cell :=
  [markdown []; markdown []; markdown []; cell_3; markdown []; markdown []; cell_6;
   markdown []; cell_8; markdown []; markdown []; cell_11; markdown []; cell_13;
   markdown []; cell_15; cell_16; markdown []; cell_18; markdown []; cell_20;
   markdown []; cell_22; markdown []; cell_24; markdown []; cell_26; cell_27;
   markdown []; cell_29; markdown []; markdown []; cell_32; markdown []; cell_34;
   cell_35; markdown []; cell_37; markdown []; cell_39; cell_40; markdown []; cell_42;
   markdown []; markdown []; markdown []; cell_46].

End Intro.

(** *** The Bayesian neural network notebook *)

Module Bnn.

(** Cell 3. *)
Definition cell_3 : cell :=
  code
    ["import os";
     "from PIL import Image";
     "";
     "import numpy as np";
     "import matplotlib.pyplot as plt";
     "";
     "import torch";
     "from torch.utils.data import Dataset";
     "from torch.utils.data import DataLoader";
     "from torchvision import datasets, transforms";
     "";
     "import pyro";
     "import pyro.distributions as dist";
     "from pyro.infer import SVI, Trace_ELBO";
     "from pyro.optim import Adam";
     "";
     "pyro.set_rng_seed(101)"].

(** Cell 5. *)
Definition cell_5 : cell :=
  code
    ["train_dataset = datasets.MNIST('./data', train=True, download=True,";
     "                               transform=transforms.Compose([";
     "                               transforms.ToTensor(),";
     "                               ]))";
     "";
     "test_dataset = datasets.MNIST('./data', train=False, download=True,";
     "                              transform=transforms.Compose([";
     "                              transforms.ToTensor(),";
     "                              ]))";
     "";
     "train_loader = torch.utils.data.DataLoader(train_dataset, batch_size=128, shuffle=True)";
     "test_loader  = torch.utils.data.DataLoader(test_dataset,  batch_size=128, shuffle=True)"].

(** Cell 6. *)
Definition cell_6 : cell :=
  markdown
    ["> **Task 1**: plot a selection of the train/ test images."].

(** Cell 7. *)
Definition cell_7 : cell :=
  code
    ["## TODO: write some code here";
     ""].

(** Cell 9. *)
Definition cell_9 : cell :=
  code
    ["class NN(torch.nn.Module):";
     "    ";
     "    def __init__(self, input_size, hidden_size, output_size):";
     "        super().__init__()";
     "        self.fc1 = torch.nn.Linear(input_size, hidden_size)";
     "        self.fc2 = torch.nn.Linear(hidden_size, output_size)";
     "        self.relu = torch.nn.ReLU()";
     "        self.log_softmax = torch.nn.LogSoftmax(dim=1)";
     "        ";
     "    def forward(self, x):";
     "        x = x.view(-1, 28*28)";
     "        x = self.relu(self.fc1(x))";
     "        x = self.fc2(x)";
     "        x = self.log_softmax(x)# output (log) softmax probabilities of each class";
     "        return x";
     "";
     "nn = NN(28*28, 512, 10)"].

(** Cell 10. *)
Definition cell_10 : cell :=
  markdown
    ["> **Task 2**: train this neural network over 5 epochs using the loss function and optimizer given below.";
     "> **Task 3**: report the average prediction accuracy across the test dataset."].

(** Cell 11. *)
Definition cell_11 : cell :=
  code
    ["loss_function = torch.nn.NLLLoss()# negative log likelihood loss";
     "optimizer = torch.optim.Adam(nn.parameters(), lr=0.01)";
     "num_epochs = 5";
     "";
     "## TODO: write some code here";
     ""].

(** Cell 13. *)
Definition cell_13 : cell :=
  code
    ["# load the test letter dataset";
     "letters = [" +:+ qs "a" +:+ "," +:+ qs "b" +:+ "," +:+ qs "c" +:+ "," +:+ qs "d" +:+ "," +:+ qs "e" +:+ "," +:+ qs "f" +:+ "," +:+ qs "g" +:+ "," +:+ qs "h" +:+ "," +:+ qs "i" +:+ "," +:+ qs "j" +:+ "]";
     "x_letters = np.array([np.array(Image.open(" +:+ qs "data/not-mnist/%s.png" +:+ "%(l)))";
     "                         for l in letters]).astype(np.float32)# loads letters data";
     "x_letters /= np.max(x_letters, axis=(1,2), keepdims=True)# normalise";
     "x_letters = torch.from_numpy(x_letters)";
     "";
     "# plot the letters test data";
     "plt.figure(figsize=(14,3))";
     "for iplot,i in enumerate([0,1,2,3]):";
     "    plt.subplot(1,4,iplot+1)";
     "    plt.imshow(x_letters[i].numpy())";
     "    plt.title(letters[i])";
     "plt.show()"].

(** Cell 14. *)
Definition cell_14 : cell :=
  markdown
    ["> **Task 4**: plot the predicted softmax probability distribution over each class for each of these test letters."].

(** Cell 15. *)
Definition cell_15 : cell :=
  code
    ["## TODO: write some code here";
     ""].

(** Cell 17. *)
Definition cell_17 : cell :=
  code
    ["PyroLinear = pyro.nn.PyroModule[torch.nn.Linear]";
     "    ";
     "class BNN(pyro.nn.PyroModule):";
     "    ";
     "    def __init__(self, input_size, hidden_size, output_size):";
     "        super().__init__()";
     "        ";
     "        self.fc1 = PyroLinear(input_size, hidden_size)";
     "        self.fc1.weight = pyro.nn.PyroSample(dist.Normal(0., 1.).expand([hidden_size, input_size]).to_event(2))";
     "        self.fc1.bias   = pyro.nn.PyroSample(dist.Normal(0., 1.).expand([hidden_size]).to_event(1))";
     "        ";
     "        self.fc2 = PyroLinear(hidden_size, output_size)";
     "        self.fc2.weight = pyro.nn.PyroSample(dist.Normal(0., 1.).expand([output_size, hidden_size]).to_event(2))";
     "        self.fc2.bias   = pyro.nn.PyroSample(dist.Normal(0., 1.).expand([output_size]).to_event(1))";
     "        ";
     "        self.relu = torch.nn.ReLU()";
     "        self.log_softmax = torch.nn.LogSoftmax(dim=1)";
     "";
     "    def forward(self, x, y=None):";
     "        x = x.view(-1, 28*28)";
     "        x = self.relu(self.fc1(x))";
     "        x = self.fc2(x)";
     "        x = self.log_softmax(x)# output (log) softmax probabilities of each class";
     "        ";
     "        with pyro.plate(" +:+ qs "data" +:+ ", x.shape[0]):";
     "            obs = pyro.sample(" +:+ qs "obs" +:+ ", dist.Categorical(logits=x), obs=y)";
     "            ";
     "bnn = BNN(28*28, 512, 10)"].

(** Cell 19. *)
Definition cell_19 : cell :=
  markdown
    ["> **Task 5**: Define a SVI guide function to train the BNN. Define separate (independent) univariate normal distributions for each parameter."].

(** Cell 21. *)
Definition cell_21 : cell :=
  code
    ["def guide(x, y=None):";
     "    ";
     "    ## TODO: write some code here";
     "    "].

(** Cell 23. *)
Definition cell_23 : cell :=
  code
    ["#guide = pyro.infer.autoguide.AutoDiagonalNormal(bnn)"].

(** Cell 26. *)
Definition cell_26 : cell :=
  markdown
    ["> **Task 6**: train the BNN, using the optimizer and network structure defined below."].

(** Cell 28. *)
Definition cell_28 : cell :=
  code
    ["pyro.clear_param_store()";
     "svi = SVI(model=bnn, ";
     "          guide=guide, ";
     "          optim=Adam({" +:+ qs "lr" +:+ ": 1e-2}), ";
     "          loss=Trace_ELBO(num_particles=1))";
     "num_epochs = 5";
     "";
     "## TODO: write some code here";
     ""].

(** Cell 29. *)
Definition cell_29 : cell :=
  markdown
    ["> **Task 7**: report the average prediction accuracy across the test dataset."].

(** Cell 31. *)
Definition cell_31 : cell :=
  code
    ["## TODO: write some code here";
     ""].

(** Cell 33. *)
Definition cell_33 : cell :=
  markdown
    ["> **Task 8**: plot the predictive posterior distribution over each class for each of the test letters."].

(** Cell 35. *)
Definition cell_35 : cell :=
  code
    ["## TODO: write some code here";
     ""].

(** Cell 36. *)
Definition cell_36 : cell :=
  markdown
    ["> **(Extension) Question 1**: What other guide functions could you use? How does their computational complexity scale?";
     "> **(Extension) Question 2**: How would MCMC methods (e.g. HMC) cope for this problem?";
     "> **(Extension) Task 1**: Try experimenting with other guides in: http://docs.pyro.ai/en/stable/infer.autoguide.html  such as `AutoLowRankMultivariateNormal`."].

(** Cell 37. *)
Definition cell_37 : cell :=
  code
    [].

Definition notebook : list cell :=
  [markdown []; markdown []; markdown []; cell_3; markdown []; cell_5; cell_6; cell_7;
   markdown []; cell_9; cell_10; cell_11; markdown []; cell_13; cell_14; cell_15;
   markdown []; cell_17; markdown []; cell_19; markdown []; cell_21; markdown [];
   cell_23; markdown []; markdown []; cell_26; markdown []; cell_28; cell_29;
   markdown []; cell_31; markdown []; cell_33; markdown []; cell_35; cell_36; cell_37].

End Bnn.

(** *** The definitions the notebooks make *)

Definition weather_src : list string :=
  definition_of "def weather(" (code_lines Intro.cell_11).
Definition ice_cream_sales_src : list string :=
  definition_of "def ice_cream_sales(" (code_lines Intro.cell_13).
Definition scale_src : list string :=
  definition_of "def scale(" (code_lines Intro.cell_18).
Definition scale_obs_src : list string :=
  definition_of "def scale_obs(" (code_lines Intro.cell_22).
Definition guide_src : list string :=
  definition_of "def guide(" (code_lines Intro.cell_29).
Definition NN_src : list string :=
  definition_of "class NN(" (code_lines Bnn.cell_9).
Definition NN_init_src : list string := definition_of "def __init__(" NN_src.
Definition NN_forward_src : list string := definition_of "def forward(" NN_src.
Definition BNN_src : list string :=
  definition_of "class BNN(" (code_lines Bnn.cell_17).
Definition BNN_init_src : list string := definition_of "def __init__(" BNN_src.
Definition BNN_forward_src : list string := definition_of "def forward(" BNN_src.
Definition bnn_guide_src : list string :=
  definition_of "def guide(" (code_lines Bnn.cell_21).

Definition both_notebooks : list cell := Intro.notebook ++ Bnn.notebook.

End Source.
Export Source.

(** ** Sample sites, modules and priors of a run *)

Module Sites.

(** The sample sites a run left to the library to draw: those without [obs]. *)
Fixpoint latent_sites {V} (l : list (libcall V)) : list string :=
  match l with
  | [] => []
  | pyro_sample name _ None :: l' => name :: latent_sites l'
  | _ :: l' => latent_sites l'
  end.

(** The sample sites a run observed, each with the value it gave. *)
Fixpoint observed_sites {V} (l : list (libcall V)) : list (string * V) :=
  match l with
  | [] => []
  | pyro_sample name _ (Some v) :: l' => (name, v) :: observed_sites l'
  | _ :: l' => observed_sites l'
  end.

(** The modules a run built, each with the object the library returned. *)
Fixpoint modules_built {V} (l : list (entry V)) : list (torch_module * V) :=
  match l with
  | [] => []
  | called (new_module m) (inr v) :: l' => (m, v) :: modules_built l'
  | _ :: l' => modules_built l'
  end.

(** The [PyroSample] priors a run set: the module, the attribute, the prior. *)
Fixpoint priors_set {V} (l : list (entry V)) : list (V * string * prior) :=
  match l with
  | [] => []
  | did (set_pyro_sample m attr p) None :: l' => (m, attr, p) :: priors_set l'
  | _ :: l' => priors_set l'
  end.

(** [PyroLinear] is [pyro.nn.PyroModule[torch.nn.Linear]]: the module under
    it. *)
Definition torch_class (m : torch_module) : torch_module :=
  match m with
  | PyroLinear i o => Linear i o
  | _ => m
  end.

(** A library over handles: every call returns a new handle and no command
    fails. *)
Definition handles : library nat nat :=
  Library (fun _ n => (inr n, S n)) (fun _ n => (None, n)).

End Sites.
Export Sites.

(** ** The training cell of the intro notebook *)

Module Training.

Definition IndexError : exn := Exn "IndexError" "list index out of range".

(** [l[-1]]: the last item, IndexError on an empty list. *)
Definition last_item {V A} (l : list A) : model V A :=
  match last l with
  | Some x => Ret x
  | None => Raise IndexError
  end.

(** The loop [for i in range(num_steps)] with the three lists it appends to.
    [svi_step] is [svi.step()], a method of the library's SVI object built
    from [conditioned_scale] and [guide]; it returns the loss. *)
Fixpoint training_loop (svi_step : model pyfloat pyfloat) (num_steps : nat)
    (losses a b : list pyfloat) : model pyfloat (list pyfloat * list pyfloat * list pyfloat) :=
  match num_steps with
  | O => mret (losses, a, b)
  | S n =>
      loss ← svi_step;
      pa ← param_get "a";
      pb ← param_get "b";
      training_loop svi_step n (losses ++ [loss]) (a ++ [item pa]) (b ++ [item pb])
  end.

(** The cell: clear the store, train, read [a[-1]] and [b[-1]] for the two
    prints. *)
Definition training_cell (svi_step : model pyfloat pyfloat) (num_steps : nat)
    : model pyfloat (pyfloat * pyfloat) :=
  _ ← exec clear_param_store;
  '(losses, a, b) ← training_loop svi_step num_steps [] [] [];
  a_last ← last_item a;
  b_last ← last_item b;
  mret (a_last, b_last).

End Training.
Export Training.

(** ** The posterior of the scale model *)

Module Posterior.

(** Minus twice the logarithm of the joint density of [scale] at a weight [w]
    and the measurement 14, up to the constant of the two Normal densities:
    the prior Normal(10, 1.0) of [weight] and the likelihood
    Normal(w, 0.75) of [measurement]. *)
Definition joint_exponent (w : Q) : Q :=
  ((w - 10) / 1.0) ^ 2 + ((14 - w) / 0.75) ^ 2.

(** The same for a Normal with the loc and the variance the analytical
    posterior cell prints. *)
Definition posterior_exponent (w : Q) : Q :=
  (w - posterior_loc) ^ 2 / posterior_variance.

End Posterior.
Export Posterior.

(** ** The letters cell of the BNN notebook *)

Module Letters.

Definition letters : list string := ["a"; "b"; "c"; "d"; "e"; "f"; "g"; "h"; "i"; "j"].

(** [template % arg] for a template with [%s]: the argument replaces the
    first [%s]. *)
Fixpoint percent_s (template arg : string) : string :=
  match template with
  | String "%" (String "s" rest) => arg +:+ rest
  | String c rest => String c (percent_s rest arg)
  | EmptyString => EmptyString
  end.

(** The file the comprehension opens for the letter [l]. *)
Definition letter_path (l : string) : string := percent_s "data/not-mnist/%s.png" l.

Definition letter_paths : list string := letter_path <$> letters.

(** One turn of [for iplot,i in enumerate(indices)]: the position given to
    [plt.subplot(1,4,iplot+1)] and the title [letters[i]], none when the
    index is out of range (IndexError). *)
Definition plot_plan (indices : list nat) : list (nat * option string) :=
  imap (fun iplot i => (iplot + 1, letters !! i)) indices.

(** An image: rows of pixel values. The pixels of an 8-bit image are finite,
    so they are kept as rationals. *)
Definition image : Type := list (list Q).

Definition pixels {A} (img : list (list A)) : list A := concat img.

Definition ValueError : exn :=
  Exn "ValueError" "zero-size array to reduction operation maximum which has no identity".

(** [np.max] over the pixels of one image (axes 1 and 2 of the stack): no
    maximum for an image without pixels. *)
Fixpoint max_pixel (l : list Q) : option Q :=
  match l with
  | [] => None
  | x :: l' =>
      match max_pixel l' with
      | None => Some x
      | Some m => Some (if Qle_bool m x then x else m)
      end
  end.

(** Division of floats whose operands are finite: 0/0 is a NaN, x/0 an
    infinity of the sign of x. The quotient is kept exact; rounding leaves
    it between the same bounds. *)
Definition np_divide (x m : Q) : pyfloat :=
  if Qeq_bool m 0
  then if Qeq_bool x 0 then NaN else if Qle_bool 0 x then PosInf else NegInf
  else Fin (x / m).

(** [x /= np.max(x, axis=(1,2), keepdims=True)] on one image of the stack:
    every pixel divided by the maximum of its image. *)
Definition normalise_image (img : image) : exn + list (list pyfloat) :=
  match max_pixel (pixels img) with
  | None => inl ValueError
  | Some m => inr (List.map (List.map (fun x => np_divide x m)) img)
  end.

End Letters.
Export Letters.

(** ** Tactics *)

(** Unfolds a run one layer, leaving arithmetic and lookups alone. *)
Ltac model_simpl :=
  cbn [run bind raise_free and_ ifexp call exec sample sample_obs param param_get
       mret mbind model_ret model_bind logged log out final calls_made branch_sites].

(** Destructs the result of the next library call of the run in the goal. *)
Ltac next_call :=
  model_simpl;
  match goal with
  | |- context [lib_call ?L ?c ?s] => destruct (lib_call L c s) as [[?|?] ?]
  | |- context [lib_do ?L ?c ?s] => destruct (lib_do L c s) as [[?|] ?]
  end;
  model_simpl.

(** Splits a membership in a list written out. *)
Ltac in_cases H :=
  simpl in H;
  repeat match type of H with
         | _ ∨ _ => destruct H as [H|H]
         | False => destruct H
         end.

(** * Theorems *)

(** ** Scalars *)

Lemma torch_abs_not_negative (b : pyfloat) : float_ltb (torch_abs b) (Fin 0) = false.
Proof.
  destruct b as [q| | |]; simpl; try reflexivity.
  apply negb_false_iff, Qle_bool_iff, Qabs_nonneg.
Qed.

(** ** Runs *)

Section RunFacts.
Context {V S : Type} (L : library V S).

Lemma log_logged {A} (x : entry V) (r : result V S A) : log (logged x r) = x :: log r.
Proof. reflexivity. Qed.

Lemma out_logged {A} (x : entry V) (r : result V S A) : out (logged x r) = out r.
Proof. reflexivity. Qed.

Lemma propagates_logged {A} (x : entry V) (r : result V S A) :
  succeeded x → propagates r → propagates (logged x r).
Proof.
  unfold propagates. rewrite out_logged, log_logged.
  intros Hx. destruct (out r) as [a|e].
  - by constructor.
  - intros (l & y & -> & Hl & Hy).
    exists (x :: l), y. split; [reflexivity |]. split; [by constructor | done].
Qed.

(** A program with no [Raise] of its own hands on the library's exceptions
    and adds none, whatever the library does. *)
Lemma raise_free_propagates {A} (m : model V A) (s : S) :
  raise_free m → propagates (run L m s).
Proof.
  revert s. induction m as [a|c k IH|c k IH|o kd c t IHt e IHe|e]; intros s Hm; simpl in *.
  - constructor.
  - destruct (lib_call L c s) as [[e|v] s'].
    + exists [], (called c (inl e)). by repeat split.
    + apply propagates_logged; [exact I | by apply IH].
  - destruct (lib_do L c s) as [[e|] s'].
    + exists [], (did c (Some e)). by repeat split.
    + apply propagates_logged; [exact I | by apply IH].
  - apply propagates_logged; [exact I |]. destruct c; auto.
  - destruct Hm.
Qed.


End RunFacts.

Section BindFacts.
Context {V S : Type} (L : library V S).

(** A run of [m] followed by [f] is the run of [m], then the run of [f] on
    what [m] returned, from the state [m] left; an exception of [m] ends it. *)
Lemma run_bind {A B} (m : model V A) (f : A → model V B) (s : S) :
  run L (bind m f) s =
  match out (run L m s) with
  | Returned a =>
      let r := run L (f a) (final (run L m s)) in
      Result (log (run L m s) ++ log r) (out r) (final r)
  | Raised e => Result (log (run L m s)) (Raised e) (final (run L m s))
  end.
Proof.
  revert s. induction m as [a|c k IH|c k IH|o kd c t IHt e IHe|e]; intros s; simpl.
  - by destruct (run L (f a) s).
  - destruct (lib_call L c s) as [[e|v] s']; [reflexivity |].
    rewrite IH. simpl. by destruct (out (run L (k v) s')).
  - destruct (lib_do L c s) as [[e|] s']; [reflexivity |].
    rewrite IH. simpl. by destruct (out (run L k s')).
  - destruct c; [rewrite IHt | rewrite IHe]; simpl;
      match goal with |- context [out ?r] => by destruct (out r) end.
  - reflexivity.
Qed.

Lemma log_bind_prefix {A B} (m : model V A) (f : A → model V B) (s : S) :
  log (run L m s) `prefix_of` log (run L (bind m f) s).
Proof.
  rewrite run_bind. destruct (out (run L m s)); simpl; [by eexists | reflexivity].
Qed.

End BindFacts.

(** An execution of [ice_cream_sales] begins with an execution of [weather]. *)
Lemma ice_cream_sales_runs_weather {S : Type} (L : library pyfloat S) (s : S) :
  log (run L weather s) `prefix_of` log (run L ice_cream_sales s).
Proof. apply log_bind_prefix. Qed.

(** ** The functions of the intro notebook *)

(** [weather] with its subscripts and conditionals evaluated. *)
Lemma weather_tree :
  weather =
  Call (pyro_sample "cloudy" (Bernoulli (Fin 0.3)) None) (fun cloudy =>
    Branch "weather" if_else (float_eqb cloudy (Fin 1.0))
      (Call (pyro_sample "temperature" (Normal (Fin 55.0) (Fin 10.0)) None)
            (fun temperature => Ret ("cloudy", temperature)))
      (Call (pyro_sample "temperature" (Normal (Fin 75.0) (Fin 15.0)) None)
            (fun temperature => Ret ("sunny", temperature)))).
Proof. vm_compute. reflexivity. Qed.

Lemma weather_raise_free : raise_free weather.
Proof. rewrite weather_tree. simpl. intros c. by destruct (float_eqb c (Fin 1.0)). Qed.


(** C1. Every execution of [weather] in which the library returns at both
    sample sites draws [cloudy] from Bernoulli(0.3); when the draw equals 1.0
    the weather type is "cloudy" and [temperature] is sampled from
    Normal(55.0, 10.0), otherwise it is "sunny" and [temperature] is sampled
    from Normal(75.0, 15.0); the pair (weather type, temperature) is returned.
    The two subscripts that select loc and scale succeed, and no path of
    [weather] raises an exception of its own. *)
Theorem weather_spec {S : Type} (L : library pyfloat S) (s s1 s2 : S)
    (cloudy temperature : pyfloat) :
  let is_cloudy := float_eqb cloudy (Fin 1.0) in
  let weather_type := if is_cloudy then "cloudy" else "sunny" in
  let loc := if is_cloudy then Fin 55.0 else Fin 75.0 in
  let sd := if is_cloudy then Fin 10.0 else Fin 15.0 in
  lib_call L (pyro_sample "cloudy" (Bernoulli (Fin 0.3)) None) s = (inr cloudy, s1) →
  lib_call L (pyro_sample "temperature" (Normal loc sd) None) s1 = (inr temperature, s2) →
  calls_made (log (run L weather s)) =
    [pyro_sample "cloudy" (Bernoulli (Fin 0.3)) None;
     pyro_sample "temperature" (Normal loc sd) None]
  ∧ out (run L weather s) = Returned (weather_type, temperature)
  ∧ ({[ "cloudy" := Fin 55.0; "sunny" := Fin 75.0 ]} : gmap string pyfloat) !! weather_type = Some loc
  ∧ ({[ "cloudy" := Fin 10.0; "sunny" := Fin 15.0 ]} : gmap string pyfloat) !! weather_type = Some sd
  ∧ raise_free weather.
Proof.
  intros is_cloudy weather_type loc sd H1 H2.
  assert (Hrun : calls_made (log (run L weather s)) =
      [pyro_sample "cloudy" (Bernoulli (Fin 0.3)) None;
       pyro_sample "temperature" (Normal loc sd) None]
    ∧ out (run L weather s) = Returned (weather_type, temperature)).
  { rewrite weather_tree. cbn [run]. rewrite H1. cbn [run].
    subst weather_type loc sd. fold is_cloudy. fold is_cloudy in H2.
    destruct is_cloudy; cbn [run]; rewrite H2; split; reflexivity. }
  destruct Hrun as [Hc Ho].
  repeat split; [exact Hc | exact Ho | | | exact weather_raise_free];
    subst weather_type loc sd; destruct is_cloudy; vm_compute; reflexivity.
Qed.

Lemma weather_spec_witness :
  out (run pyro weather (fresh [Fin 1; Fin 60])) = Returned ("cloudy", Fin 60)
  ∧ out (run pyro weather (fresh [Fin 0; Fin 85])) = Returned ("sunny", Fin 85).
Proof.
  split.
  - apply (weather_spec pyro (fresh [Fin 1; Fin 60])
             (Session (rng (fresh [Fin 1; Fin 60])) 1 ∅)
             (Session (rng (fresh [Fin 1; Fin 60])) 2 ∅) (Fin 1) (Fin 60));
      reflexivity.
  - apply (weather_spec pyro (fresh [Fin 0; Fin 85])
             (Session (rng (fresh [Fin 0; Fin 85])) 1 ∅)
             (Session (rng (fresh [Fin 0; Fin 85])) 2 ∅) (Fin 0) (Fin 85));
      reflexivity.
Defined.

Lemma ice_cream_sales_tree :
  ice_cream_sales =
  Call (pyro_sample "cloudy" (Bernoulli (Fin 0.3)) None) (fun cloudy =>
    Branch "weather" if_else (float_eqb cloudy (Fin 1.0))
      (Call (pyro_sample "temperature" (Normal (Fin 55.0) (Fin 10.0)) None)
         (fun temperature =>
            Branch "ice_cream_sales" bool_and false
              (Branch "ice_cream_sales" if_else (float_gtb temperature (Fin 80.0))
                 (Call (pyro_sample "ice_cream" (Normal (Fin 200) (Fin 10.0)) None)
                       (fun ice_cream => Ret ("cloudy", ice_cream)))
                 (Call (pyro_sample "ice_cream" (Normal (Fin 50) (Fin 10.0)) None)
                       (fun ice_cream => Ret ("cloudy", ice_cream))))
              (Branch "ice_cream_sales" if_else false
                 (Call (pyro_sample "ice_cream" (Normal (Fin 200) (Fin 10.0)) None)
                       (fun ice_cream => Ret ("cloudy", ice_cream)))
                 (Call (pyro_sample "ice_cream" (Normal (Fin 50) (Fin 10.0)) None)
                       (fun ice_cream => Ret ("cloudy", ice_cream))))))
      (Call (pyro_sample "temperature" (Normal (Fin 75.0) (Fin 15.0)) None)
         (fun temperature =>
            Branch "ice_cream_sales" bool_and true
              (Branch "ice_cream_sales" if_else (float_gtb temperature (Fin 80.0))
                 (Call (pyro_sample "ice_cream" (Normal (Fin 200) (Fin 10.0)) None)
                       (fun ice_cream => Ret ("sunny", ice_cream)))
                 (Call (pyro_sample "ice_cream" (Normal (Fin 50) (Fin 10.0)) None)
                       (fun ice_cream => Ret ("sunny", ice_cream))))
              (Branch "ice_cream_sales" if_else false
                 (Call (pyro_sample "ice_cream" (Normal (Fin 200) (Fin 10.0)) None)
                       (fun ice_cream => Ret ("sunny", ice_cream)))
                 (Call (pyro_sample "ice_cream" (Normal (Fin 50) (Fin 10.0)) None)
                       (fun ice_cream => Ret ("sunny", ice_cream))))))).
Proof. vm_compute. reflexivity. Qed.

(** [pyro.condition] turned the second site of [scale] into an observed one
    and left the rest as it was: the two programs are the same. *)
Lemma conditioned_scale_tree : conditioned_scale = scale_obs.
Proof. vm_compute. reflexivity. Qed.








Section Branching.
Context {S : Type} (L : library pyfloat S) (s : S).

Lemma weather_branches :
  branch_sites (log (run L weather s)) `prefix_of` [("weather", if_else)].
Proof.
  rewrite weather_tree. next_call; [by eexists |].
  match goal with |- context [float_eqb ?a ?b] => destruct (float_eqb a b) end;
    next_call; reflexivity.
Qed.

Lemma ice_cream_sales_branches :
  branch_sites (log (run L ice_cream_sales s)) `prefix_of`
    [("weather", if_else); ("ice_cream_sales", bool_and); ("ice_cream_sales", if_else)].
Proof.
  rewrite ice_cream_sales_tree. next_call; [by eexists |].
  match goal with |- context [float_eqb ?a ?b] => destruct (float_eqb a b) end;
    (next_call; [by eexists |]);
    try match goal with |- context [float_gtb ?a ?b] => destruct (float_gtb a b) end;
    next_call; reflexivity.
Qed.

Lemma scale_branches : branch_sites (log (run L scale s)) = [].
Proof. unfold scale. repeat (next_call; try reflexivity). Qed.

Lemma scale_obs_branches : branch_sites (log (run L scale_obs s)) = [].
Proof. unfold scale_obs. repeat (next_call; try reflexivity). Qed.

Lemma guide_branches : branch_sites (log (run L guide s)) = [].
Proof. unfold guide. repeat (next_call; try reflexivity). Qed.

End Branching.

Section NetworkBranching.
Context {V S : Type} (L : library V S) (s : S).

Lemma NN_init_branches (i h o : Z) : branch_sites (log (run L (NN_init i h o) s)) = [].
Proof. unfold NN_init. repeat (next_call; try reflexivity). Qed.

Lemma NN_forward_branches (self : net V) (x : V) :
  branch_sites (log (run L (NN_forward self x) s)) = [].
Proof. unfold NN_forward. repeat (next_call; try reflexivity). Qed.

Lemma BNN_init_branches (i h o : Z) : branch_sites (log (run L (BNN_init i h o) s)) = [].
Proof. unfold BNN_init. repeat (next_call; try reflexivity). Qed.

Lemma BNN_forward_branches (self : net V) (x : V) (y : option V) :
  branch_sites (log (run L (BNN_forward self x y) s)) = [].
Proof. unfold BNN_forward. repeat (next_call; try reflexivity). Qed.

End NetworkBranching.

(** C2 as stated fails: an execution of [ice_cream_sales] on a sunny day
    evaluates two conditional expressions, the one of [weather], which it
    calls, and its own, and a short-circuit [and] besides: three
    data-dependent branches. *)
Lemma ice_cream_sales_takes_three_branches :
  branch_sites (log (run pyro ice_cream_sales (fresh [Fin 0; Fin 85; Fin 210]))) =
    [("weather", if_else); ("ice_cream_sales", bool_and); ("ice_cream_sales", if_else)]
  ∧ conditional_count (log (run pyro ice_cream_sales (fresh [Fin 0; Fin 85; Fin 210]))) = 2
  ∧ out (run pyro ice_cream_sales (fresh [Fin 0; Fin 85; Fin 210])) = Returned ("sunny", Fin 210).
Proof. repeat split; vm_compute; reflexivity. Qed.

(** C2, amended. Whatever the library does, the conditionals an execution
    evaluates are, in order and as far as it gets: for [weather] its one
    conditional expression; for [ice_cream_sales] the conditional expression
    of [weather], then its own [and] and its own conditional expression (so
    one conditional expression per function body, two in an execution of
    [ice_cream_sales] that reaches its sample site); for [scale],
    [scale_obs], [conditioned_scale], [guide] and the methods of [NN] and
    [BNN], none. *)
Theorem conditionals_per_function {V S T : Type}
    (L : library pyfloat S) (s : S) (N : library V T) (t : T)
    (self : net V) (x : V) (y : option V) (i h o : Z) :
  branch_sites (log (run L weather s)) `prefix_of` [("weather", if_else)]
  ∧ branch_sites (log (run L ice_cream_sales s)) `prefix_of`
      [("weather", if_else); ("ice_cream_sales", bool_and); ("ice_cream_sales", if_else)]
  ∧ (∀ r, out (run L ice_cream_sales s) = Returned r →
          conditional_count (log (run L ice_cream_sales s)) = 2)
  ∧ branch_sites (log (run L scale s)) = []
  ∧ branch_sites (log (run L scale_obs s)) = []
  ∧ branch_sites (log (run L conditioned_scale s)) = []
  ∧ branch_sites (log (run L guide s)) = []
  ∧ branch_sites (log (run N (NN_init i h o) t)) = []
  ∧ branch_sites (log (run N (NN_forward self x) t)) = []
  ∧ branch_sites (log (run N (BNN_init i h o) t)) = []
  ∧ branch_sites (log (run N (BNN_forward self x y) t)) = [].
Proof.
  split; [apply weather_branches |].
  split; [apply ice_cream_sales_branches |].
  split.
  { rewrite ice_cream_sales_tree. intros r. next_call; [discriminate |].
    match goal with |- context [float_eqb ?a ?b] => destruct (float_eqb a b) end;
      (next_call; [discriminate |]);
      try match goal with |- context [float_gtb ?a ?b] => destruct (float_gtb a b) end;
      (next_call; [discriminate |]); reflexivity. }
  rewrite conditioned_scale_tree.
  repeat split;
    auto using scale_branches, scale_obs_branches, guide_branches, NN_init_branches,
      NN_forward_branches, BNN_init_branches, BNN_forward_branches.
Qed.


(** C10. In every execution of [guide], against every behaviour of the
    library and so for every value [b] the parameter store hands back, a
    Normal that the guide passes to [pyro.sample] has as scale [torch.abs(b)]
    of the value that [pyro.param("b", ...)] returned, and this scale is not
    negative. *)
Theorem guide_scale_never_negative {S : Type} (L : library pyfloat S) (s : S)
    (name : string) (loc sc : pyfloat) (obs : option pyfloat) :
  In (pyro_sample name (Normal loc sc) obs) (calls_made (log (run L guide s))) →
  float_ltb sc (Fin 0) = false
  ∧ ∃ a b, name = "weight" ∧ loc = a ∧ sc = torch_abs b
         ∧ In (called (pyro_param "a" (Some (Fin 1))) (inr a)) (log (run L guide s))
         ∧ In (called (pyro_param "b" (Some (Fin 1))) (inr b)) (log (run L guide s)).
Proof.
  unfold guide.
  next_call; [simpl; intros [H|[]]; discriminate |].
  next_call; [simpl; intros [H|[H|[]]]; discriminate |].
  next_call; simpl; intros [H|[H|[H|[]]]]; try discriminate;
    injection H as <- <- <- <-;
    (split; [apply torch_abs_not_negative | eexists _, _; repeat split; auto]).
Qed.

Lemma guide_scale_never_negative_witness :
  float_ltb (Fin 3) (Fin 0) = false
  ∧ ∃ a b, "weight" = "weight" ∧ Fin 2 = a ∧ Fin 3 = torch_abs b
      ∧ In (called (pyro_param "a" (Some (Fin 1))) (inr a))
           (log (run pyro guide (Session (fun _ => Fin 0) 0 {[ "a" := Fin 2; "b" := Fin (-3) ]})))
      ∧ In (called (pyro_param "b" (Some (Fin 1))) (inr b))
           (log (run pyro guide (Session (fun _ => Fin 0) 0 {[ "a" := Fin 2; "b" := Fin (-3) ]}))).
Proof.
  apply (guide_scale_never_negative pyro
           (Session (fun _ => Fin 0) 0 {[ "a" := Fin 2; "b" := Fin (-3) ]})
           "weight" (Fin 2) (Fin 3) None).
  vm_compute. right. right. left. reflexivity.
Defined.

(** ** The parameter store *)

Lemma param_store_keeps (name n : string) (init : option pyfloat) (v : pyfloat)
    (st : gmap string pyfloat) :
  st !! name = Some v → snd (param_store n init st) !! name = Some v.
Proof.
  intros H. unfold param_store.
  destruct (st !! n) as [w|] eqn:Hn; [exact H |].
  destruct init as [w|]; [| exact H]. simpl.
  rewrite lookup_insert_ne; [exact H |]. intros ->. congruence.
Qed.

Lemma after_params_keeps (calls : list (string * option pyfloat)) (name : string)
    (v : pyfloat) (st : gmap string pyfloat) :
  st !! name = Some v → after_params calls st !! name = Some v.
Proof.
  revert st. induction calls as [|[n init] calls IH]; intros st H; simpl; [exact H |].
  apply IH. by apply param_store_keeps.
Qed.

(** C4. With no parameter [name] in the store, [pyro.param(name, v)] stores
    [v] under the name and returns it. After any further [pyro.param] calls,
    a call with the same name returns the stored [v] whatever initial value
    it is given, or none. Once the store is cleared it is empty, and the
    next [pyro.param(name, v')] stores and returns [v']. The cells of the
    notebook that do this with [new_param] read 1, then 1 (the 10 is
    ignored), then 10 after the store is cleared. *)
Theorem param_store_spec (name : string) (v v' : pyfloat) (st : gmap string pyfloat)
    (calls : list (string * option pyfloat)) (init : option pyfloat) :
  st !! name = None →
  param_store name (Some v) st = (inr v, <[name := v]> st)
  ∧ param_store name init (after_params calls (<[name := v]> st))
    = (inr v, after_params calls (<[name := v]> st))
  ∧ clear_store (after_params calls (<[name := v]> st)) = ∅
  ∧ param_store name (Some v') (clear_store (after_params calls (<[name := v]> st)))
    = (inr v', {[ name := v' ]})
  ∧ out (run pyro new_param_cells (fresh [])) = Returned (Fin 1, Fin 1, Fin 10).
Proof.
  intros H. split; [| split; [| split; [| split]]].
  - unfold param_store. by rewrite H.
  - unfold param_store.
    rewrite (after_params_keeps calls name v); [reflexivity | apply lookup_insert_eq].
  - reflexivity.
  - unfold param_store, clear_store. rewrite lookup_empty. by rewrite insert_empty.
  - vm_compute. reflexivity.
Qed.

Lemma param_store_spec_witness :
  param_store "new_param" (Some (Fin 1)) ∅ = (inr (Fin 1), <["new_param" := Fin 1]> ∅)
  ∧ param_store "new_param" (Some (Fin 10))
      (after_params [("a", Some (Fin 1)); ("b", Some (Fin 1))] (<["new_param" := Fin 1]> ∅))
    = (inr (Fin 1),
       after_params [("a", Some (Fin 1)); ("b", Some (Fin 1))] (<["new_param" := Fin 1]> ∅))
  ∧ clear_store
      (after_params [("a", Some (Fin 1)); ("b", Some (Fin 1))] (<["new_param" := Fin 1]> ∅)) = ∅
  ∧ param_store "new_param" (Some (Fin 10))
      (clear_store
         (after_params [("a", Some (Fin 1)); ("b", Some (Fin 1))] (<["new_param" := Fin 1]> ∅)))
    = (inr (Fin 10), {[ "new_param" := Fin 10 ]})
  ∧ out (run pyro new_param_cells (fresh [])) = Returned (Fin 1, Fin 1, Fin 10).
Proof.
  apply (param_store_spec "new_param" (Fin 1) (Fin 10) ∅
           [("a", Some (Fin 1)); ("b", Some (Fin 1))] (Some (Fin 10))).
  reflexivity.
Defined.

(** ** Exceptions *)



(** ** The analytical posterior *)

(** C9. In exact arithmetic the loc expression of the analytical posterior
    cell is 1256/100 = 12.56, the value under the square root of its scale
    expression is 9/25 = 0.36, and the scale is 3/5 = 0.6. Neither division
    is by zero. *)
Theorem analytical_posterior_values :
  (posterior_loc == 1256 # 100)%Q
  ∧ (posterior_loc == 12.56)%Q
  ∧ (posterior_variance == 9 # 25)%Q
  ∧ (posterior_variance == 0.36)%Q
  ∧ posterior_scale = Q2R (3 # 5)
  ∧ (3 # 5 == 0.6)%Q
  ∧ ¬ (1 + 0.75 ^ 2 == 0)%Q.
Proof.
  repeat split; try reflexivity; try discriminate.
  unfold posterior_scale, np_sqrt.
  assert (H : Q2R posterior_variance = (Q2R (3 # 5) * Q2R (3 # 5))%R).
  { rewrite <- Q2R_mult. apply Qeq_eqR. reflexivity. }
  rewrite H. apply sqrt_square. unfold Q2R. simpl. lra.
Qed.

(** ** Lines and blocks *)

Section TextFacts.

Lemma block_body_prefix (n : nat) (ls : list string) : block_body n ls `prefix_of` ls.
Proof.
  induction ls as [|l ls IH]; simpl; [reflexivity |].
  destruct (blank l || (n <? indent l)); [by apply prefix_cons | apply prefix_nil].
Qed.

Lemma drop_blank_end_prefix (ls : list string) : drop_blank_end ls `prefix_of` ls.
Proof.
  induction ls as [|l ls IH]; simpl; [reflexivity |].
  destruct (drop_blank_end ls) as [|l' rest].
  - destruct (blank l); [apply prefix_nil | apply prefix_cons, prefix_nil].
  - by apply prefix_cons.
Qed.

(** A definition is a run of consecutive lines of its cell. *)
Lemma definition_of_segment (head : string) (ls : list string) :
  ∃ before after, ls = before ++ definition_of head ls ++ after.
Proof.
  induction ls as [|l ls IH]; simpl.
  - by exists [], [].
  - destruct (String.prefix head (lstrip l)).
    + destruct (drop_blank_end_prefix (block_body (indent l) ls)) as [k1 H1].
      destruct (block_body_prefix (indent l) ls) as [k2 H2].
      exists [], (k1 ++ k2). simpl. f_equal.
      rewrite H2 at 1. rewrite H1 at 1. by rewrite <- app_assoc.
    + destruct IH as (before & after & H). exists (l :: before), after.
      simpl. by f_equal.
Qed.

Lemma code_line_count_le (ls : list string) : code_line_count ls ≤ length ls.
Proof. unfold code_line_count. apply List.filter_length_le. Qed.

(** A block without a statement is refused. *)
Lemma suites_ok_needs_statement (l : string) (ls : list string) :
  opens_block l = true → next_statement ls = None → suites_ok (l :: ls) = false.
Proof. intros H1 H2. simpl. by rewrite H1, H2. Qed.

End TextFacts.

(** ** The notebooks as text *)

(** Python accepts every code cell of the two notebooks but one, the stub of
    the BNN guide. *)
Lemma cells_accepted :
  forallb accepted Intro.notebook = true
  ∧ List.filter (fun c => negb (accepted c)) Bnn.notebook = [Bnn.cell_21].
Proof. split; vm_compute; reflexivity. Qed.

(** The functions bound once each notebook ran. *)
Lemma functions_bound :
  List.map fst (bound_functions [] Intro.notebook) =
    ["guide"; "scale_obs"; "scale"; "ice_cream_sales"; "weather"]
  ∧ List.map fst (bound_functions [] Bnn.notebook) = [].
Proof. split; vm_compute; reflexivity. Qed.

(** C7 as stated fails: the class [BNN] is 24 lines long, 18 of them code,
    and the class [NN] is 15 lines long. *)
Lemma BNN_class_is_not_under_15_lines :
  length BNN_src = 24 ∧ code_line_count BNN_src = 18
  ∧ 15 ≤ code_line_count BNN_src ∧ length NN_src = 15.
Proof. repeat split; vm_compute; lia. Qed.

(** C7, amended. Each of the functions [weather], [ice_cream_sales],
    [scale], [scale_obs], [guide] (both notebooks) and each method of [NN]
    and [BNN] is under 15 lines of source, blank and comment lines counted.
    The class [NN] is 15 lines long, 13 of them code; the class [BNN] is 24
    lines long, 18 of them code. *)
Theorem definition_lengths :
  length weather_src = 13
  ∧ length ice_cream_sales_src = 8
  ∧ length scale_src = 4
  ∧ length scale_obs_src = 4
  ∧ length guide_src = 7
  ∧ length bnn_guide_src = 3
  ∧ length NN_init_src = 6
  ∧ length NN_forward_src = 6
  ∧ length BNN_init_src = 13
  ∧ length BNN_forward_src = 8
  ∧ length NN_src = 15 ∧ code_line_count NN_src = 13
  ∧ length BNN_src = 24 ∧ code_line_count BNN_src = 18.
Proof. repeat split; vm_compute; reflexivity. Qed.

(** C6 as stated fails: the stub of the BNN guide is no function. Its body
    is a comment, Python refuses the cell, nothing binds [guide], and a call
    raises NameError where the claim has it return None. Of the twelve
    numbered tasks, six have a cell that holds only the TODO comment. *)
Lemma bnn_guide_is_not_bound :
  call_after Bnn.notebook "guide" = raises_NameError
  ∧ accepted Bnn.cell_21 = false
  ∧ length (List.filter (fun e => only_todo (snd e))
              (exercises Intro.notebook ++ exercises Bnn.notebook)) = 6
  ∧ length (exercises Intro.notebook ++ exercises Bnn.notebook) = 12.
Proof. repeat split; vm_compute; reflexivity. Qed.

(** C6, amended. The notebooks set twelve numbered tasks, four in the intro
    notebook and eight in the BNN notebook. The code cell of every one of
    them has the comment [## TODO: write some code here] and no solution; for
    six of them the cell holds nothing else, for the other six it also holds
    the code the task starts from. The stub of the BNN guide is the header
    [def guide(x, y=None):] over a comment and blank lines: it has no
    statement, Python does not accept the cell, and the notebook leaves
    [guide] unbound until the body is written ([guide] of the intro notebook
    is bound and returns a value). *)
Theorem exercises_left_as_stubs :
  length (exercises Intro.notebook) = 4
  ∧ length (exercises Bnn.notebook) = 8
  ∧ forallb (fun e => has_todo (snd e))
      (exercises Intro.notebook ++ exercises Bnn.notebook) = true
  ∧ List.map (fun e => only_todo (snd e)) (exercises Intro.notebook) =
      [false; false; true; true]
  ∧ List.map (fun e => only_todo (snd e)) (exercises Bnn.notebook) =
      [true; false; false; true; false; false; true; true]
  ∧ bnn_guide_src =
      ["def guide(x, y=None):"; "    "; "    ## TODO: write some code here"]
  ∧ List.filter statement (tail bnn_guide_src) = []
  ∧ accepted Bnn.cell_21 = false
  ∧ call_after Bnn.notebook "guide" = raises_NameError
  ∧ call_after Intro.notebook "guide" = returns_a_value.
Proof. repeat split; vm_compute; reflexivity. Qed.

(** Every name the two notebooks call, each once, in the order of its last
    call (the header of a definition counts as a call of its name). *)
Lemma callee_inventory :
  remove_dups (all_callees both_notebooks) =
    ["torch.distributions.Normal"; "normal.rsample"; "dist.Bernoulli"; "cloudy.item";
     "temperature.item"; "weather"; "pyro.distributions.Normal"; "ice_cream_sales";
     "scale"; "pyro.condition"; "scale_obs"; "HMC"; "MCMC"; "sampler.run";
     "sampler.summary"; "sampler.get_samples"; "type"; "torch.abs"; "np.sqrt";
     "torch.tensor"; "SGD"; "range"; "losses.append"; "svi.step"; "a.append";
     "b.append"; "pyro.param"; ".item"; "print"; "pyro.set_rng_seed"; "datasets.MNIST";
     "transforms.Compose"; "transforms.ToTensor"; "torch.utils.data.DataLoader";
     "torch.nn.Linear"; "NN"; "torch.nn.NLLLoss"; "torch.optim.Adam"; "nn.parameters";
     "np.array"; "Image.open"; ".astype"; "np.max"; "torch.from_numpy"; "plt.figure";
     "enumerate"; "plt.subplot"; "plt.imshow"; ".numpy"; "plt.title"; "plt.show";
     "__init__"; "super"; ".__init__"; "PyroLinear"; "pyro.nn.PyroSample"; "dist.Normal";
     ".expand"; ".to_event"; "torch.nn.ReLU"; "torch.nn.LogSoftmax"; "forward"; "x.view";
     "self.relu"; "self.fc1"; "self.fc2"; "self.log_softmax"; "pyro.plate"; "pyro.sample";
     "dist.Categorical"; "BNN"; "guide"; "pyro.clear_param_store"; "SVI"; "Adam";
     "Trace_ELBO"].
Proof. vm_compute. reflexivity. Qed.



(** * Further properties of the notebooks' code *)

(** ** [ice_cream_sales] *)

(** X1. In every execution of [ice_cream_sales] in which the library returns
    at its three sample sites, [ice_cream] is sampled from Normal(200, 10.0)
    when the weather is sunny and the temperature is above 80.0, and from
    Normal(50, 10.0) otherwise; the weather type of [weather] and the
    [ice_cream] draw are returned. *)
Theorem ice_cream_sales_spec {S : Type} (L : library pyfloat S) (s s1 s2 s3 : S)
    (cloudy temperature ice_cream : pyfloat) :
  let is_cloudy := float_eqb cloudy (Fin 1.0) in
  let weather_type := if is_cloudy then "cloudy" else "sunny" in
  let loc := if is_cloudy then Fin 55.0 else Fin 75.0 in
  let sd := if is_cloudy then Fin 10.0 else Fin 15.0 in
  let expected_sales :=
    if negb is_cloudy && float_gtb temperature (Fin 80.0) then Fin 200 else Fin 50 in
  lib_call L (pyro_sample "cloudy" (Bernoulli (Fin 0.3)) None) s = (inr cloudy, s1) →
  lib_call L (pyro_sample "temperature" (Normal loc sd) None) s1 = (inr temperature, s2) →
  lib_call L (pyro_sample "ice_cream" (Normal expected_sales (Fin 10.0)) None) s2
    = (inr ice_cream, s3) →
  calls_made (log (run L ice_cream_sales s)) =
    [pyro_sample "cloudy" (Bernoulli (Fin 0.3)) None;
     pyro_sample "temperature" (Normal loc sd) None;
     pyro_sample "ice_cream" (Normal expected_sales (Fin 10.0)) None]
  ∧ out (run L ice_cream_sales s) = Returned (weather_type, ice_cream).
Proof.
  intros is_cloudy weather_type loc sd expected_sales H1 H2 H3.
  rewrite ice_cream_sales_tree. cbn [run]. rewrite H1. cbn [run].
  subst weather_type loc sd expected_sales. fold is_cloudy.
  fold is_cloudy in H2, H3.
  destruct is_cloudy; cbn [run negb andb] in *; rewrite H2; cbn [run logged log out].
  - rewrite H3. split; reflexivity.
  - destruct (float_gtb temperature (Fin 80.0)); cbn [run logged log out];
      rewrite H3; split; reflexivity.
Qed.

Lemma ice_cream_sales_spec_witness :
  out (run pyro ice_cream_sales (fresh [Fin 0; Fin 85; Fin 210])) = Returned ("sunny", Fin 210)
  ∧ out (run pyro ice_cream_sales (fresh [Fin 0; Fin 80; Fin 45])) = Returned ("sunny", Fin 45)
  ∧ out (run pyro ice_cream_sales (fresh [Fin 1; Fin 90; Fin 52])) = Returned ("cloudy", Fin 52).
Proof.
  split; [| split].
  - apply (ice_cream_sales_spec pyro (fresh [Fin 0; Fin 85; Fin 210])
             (Session (rng (fresh [Fin 0; Fin 85; Fin 210])) 1 ∅)
             (Session (rng (fresh [Fin 0; Fin 85; Fin 210])) 2 ∅)
             (Session (rng (fresh [Fin 0; Fin 85; Fin 210])) 3 ∅)
             (Fin 0) (Fin 85) (Fin 210)); reflexivity.
  - apply (ice_cream_sales_spec pyro (fresh [Fin 0; Fin 80; Fin 45])
             (Session (rng (fresh [Fin 0; Fin 80; Fin 45])) 1 ∅)
             (Session (rng (fresh [Fin 0; Fin 80; Fin 45])) 2 ∅)
             (Session (rng (fresh [Fin 0; Fin 80; Fin 45])) 3 ∅)
             (Fin 0) (Fin 80) (Fin 45)); reflexivity.
  - apply (ice_cream_sales_spec pyro (fresh [Fin 1; Fin 90; Fin 52])
             (Session (rng (fresh [Fin 1; Fin 90; Fin 52])) 1 ∅)
             (Session (rng (fresh [Fin 1; Fin 90; Fin 52])) 2 ∅)
             (Session (rng (fresh [Fin 1; Fin 90; Fin 52])) 3 ∅)
             (Fin 1) (Fin 90) (Fin 52)); reflexivity.
Defined.

(** X2. Whatever the library does, an execution of [ice_cream_sales] reaches
    the expected sales of 200 only on a sunny day above 80.0: if its
    [ice_cream] site has loc 200, then the [cloudy] draw was not 1.0 and the
    [temperature] draw, taken from Normal(75.0, 15.0), was greater than 80.0
    (so not a NaN and not 80.0 itself). *)
Theorem ice_cream_sales_200_only_when_sunny_and_hot {S : Type} (L : library pyfloat S)
    (s : S) (sd : pyfloat) (obs : option pyfloat) :
  In (pyro_sample "ice_cream" (Normal (Fin 200) sd) obs)
     (calls_made (log (run L ice_cream_sales s))) →
  ∃ cloudy temperature,
    In (called (pyro_sample "cloudy" (Bernoulli (Fin 0.3)) None) (inr cloudy))
       (log (run L ice_cream_sales s))
    ∧ float_eqb cloudy (Fin 1.0) = false
    ∧ In (called (pyro_sample "temperature" (Normal (Fin 75.0) (Fin 15.0)) None)
                 (inr temperature))
         (log (run L ice_cream_sales s))
    ∧ float_gtb temperature (Fin 80.0) = true
    ∧ float_eqb temperature (Fin 80.0) = false.
Proof.
  rewrite ice_cream_sales_tree.
  next_call; [simpl; intros [H|[]]; discriminate |].
  match goal with |- context [float_eqb ?a ?b] => destruct (float_eqb a b) eqn:Hc end.
  - next_call; [simpl; intros [H|[H|[]]]; discriminate |].
    next_call; simpl; intros [H|[H|[H|[]]]]; discriminate.
  - next_call; [simpl; intros [H|[H|[]]]; discriminate |].
    match goal with |- context [float_gtb ?a ?b] => destruct (float_gtb a b) eqn:Ht end.
    + intros _. eexists _, _. split; [next_call; simpl; auto |].
      split; [exact Hc |]. split; [next_call; simpl; auto |]. split; [exact Ht |].
      match goal with |- float_eqb ?t _ = false =>
        destruct t as [q| | |]; try reflexivity; simpl in *
      end.
      apply negb_true_iff in Ht. apply not_true_is_false. intros He.
      apply Qeq_bool_iff in He. apply not_true_iff_false in Ht. apply Ht.
      apply Qle_bool_iff. rewrite He. apply Qle_refl.
    + next_call; simpl; intros [H|[H|[H|[]]]]; discriminate.
Qed.

Lemma ice_cream_sales_200_only_when_sunny_and_hot_witness :
  ∃ cloudy temperature,
    In (called (pyro_sample "cloudy" (Bernoulli (Fin 0.3)) None) (inr cloudy))
       (log (run pyro ice_cream_sales (fresh [Fin 0; Fin 85; Fin 210])))
    ∧ float_eqb cloudy (Fin 1.0) = false
    ∧ In (called (pyro_sample "temperature" (Normal (Fin 75.0) (Fin 15.0)) None)
                 (inr temperature))
         (log (run pyro ice_cream_sales (fresh [Fin 0; Fin 85; Fin 210])))
    ∧ float_gtb temperature (Fin 80.0) = true
    ∧ float_eqb temperature (Fin 80.0) = false.
Proof.
  apply (ice_cream_sales_200_only_when_sunny_and_hot pyro
           (fresh [Fin 0; Fin 85; Fin 210]) (Fin 10.0) None).
  vm_compute. right. right. left. reflexivity.
Defined.

(** ** The guide and the model it is fitted to *)

(** X3. The guide is a valid guide for the conditioned model, by the two
    criteria the notebook states: both take no argument, and in executions
    that return, the sample sites [conditioned_scale] leaves unobserved are
    exactly the sample sites of [guide], the one site [weight]. The
    conditioned model observes [measurement] at 14; the guide observes
    nothing. *)
Theorem guide_covers_latent_sites {S T : Type} (L : library pyfloat S) (s : S)
    (M : library pyfloat T) (t : T) (m w : pyfloat) :
  out (run L conditioned_scale s) = Returned m →
  out (run M guide t) = Returned w →
  latent_sites (calls_made (log (run L conditioned_scale s))) = ["weight"]
  ∧ latent_sites (calls_made (log (run M guide t))) = ["weight"]
  ∧ observed_sites (calls_made (log (run L conditioned_scale s))) = [("measurement", Fin 14)]
  ∧ observed_sites (calls_made (log (run M guide t))) = [].
Proof.
  rewrite conditioned_scale_tree. unfold scale_obs, guide.
  next_call; [discriminate |]. next_call; [discriminate |]. intros _.
  next_call; [discriminate |]. next_call; [discriminate |]. next_call; [discriminate |].
  intros _. repeat split.
Qed.

Lemma guide_covers_latent_sites_witness :
  latent_sites (calls_made (log (run pyro conditioned_scale (fresh [Fin 9])))) = ["weight"]
  ∧ latent_sites (calls_made (log (run pyro guide (fresh [Fin 12])))) = ["weight"]
  ∧ observed_sites (calls_made (log (run pyro conditioned_scale (fresh [Fin 9]))))
    = [("measurement", Fin 14)]
  ∧ observed_sites (calls_made (log (run pyro guide (fresh [Fin 12])))) = [].
Proof.
  apply (guide_covers_latent_sites pyro (fresh [Fin 9]) pyro (fresh [Fin 12])
           (Fin 14) (Fin 12)); reflexivity.
Defined.

(** The unconditioned [scale] leaves [measurement] to be drawn as well. *)
Lemma scale_latent_sites :
  latent_sites (calls_made (log (run pyro scale (fresh [Fin 9; Fin 10])))) =
    ["weight"; "measurement"].
Proof. reflexivity. Qed.

(** ** The posterior of the scale model *)

Lemma Q_square_nonneg (x : Q) : (0 <= x ^ 2)%Q.
Proof.
  destruct x as [n d]. unfold Qle. simpl. rewrite Z.mul_1_r. apply Z.square_nonneg.
Qed.

(** X4. The analytical posterior cell agrees with the model as coded: for
    every weight, the exponent of the joint density of [scale] at the
    measurement 14 (prior Normal(10, 1.0), likelihood Normal(weight, 0.75),
    0.75 being a standard deviation) is the exponent of a Normal with the
    printed loc and variance plus a constant, 256/25. So the posterior of
    the weight is that Normal, and its density is highest at the printed
    loc. *)
Theorem joint_exponent_completes_the_square (w : Q) :
  (joint_exponent w == posterior_exponent w + (256 # 25))%Q
  ∧ (joint_exponent posterior_loc <= joint_exponent w)%Q.
Proof.
  assert (H : ∀ v, (joint_exponent v == posterior_exponent v + (256 # 25))%Q).
  { intros v. unfold joint_exponent, posterior_exponent, posterior_loc, posterior_variance.
    field. }
  split; [apply H |].
  rewrite !H. apply Qplus_le_compat; [| apply Qle_refl].
  assert (E0 : (posterior_exponent posterior_loc == 0)%Q).
  { unfold posterior_exponent, posterior_loc, posterior_variance. field. }
  assert (Ew : (posterior_exponent w == (25 # 9) * (w - posterior_loc) ^ 2)%Q).
  { unfold posterior_exponent, posterior_variance. field. }
  rewrite E0, Ew. apply Qmult_le_0_compat; [discriminate | apply Q_square_nonneg].
Qed.

(** ** The two network classes *)

Lemma calls_made_app {V} (l1 l2 : list (entry V)) :
  calls_made (l1 ++ l2) = calls_made l1 ++ calls_made l2.
Proof.
  induction l1 as [|x l1 IH]; [reflexivity |].
  destruct x; simpl; by rewrite IH.
Qed.

(** What [BNN.forward] does with the output of the network. *)
Lemma BNN_forward_bind {V} (self : net V) (x : V) (y : option V) :
  BNN_forward self x y =
  bind (NN_forward self x) (fun logits =>
    size ← call (tensor_shape logits 0);
    _ ← exec (plate_enter "data" size);
    obs ← sample_obs "obs" (Categorical logits) y;
    _ ← exec (plate_exit "data");
    mret tt).
Proof. reflexivity. Qed.

(** X5. [BNN.forward] is [NN.forward] followed by the observation: against
    every behaviour of the library it first makes the calls of [NN.forward]
    on the same input (view to 784 columns, fc1, relu, fc2, log_softmax); an
    exception of these ends it the same way; and when they return the
    log-probabilities, it goes on to read their first dimension, and then at
    most samples the one site [obs] from Categorical(logits) with the given
    labels as observation. *)
Theorem BNN_forward_extends_NN_forward {V S : Type} (N : library V S) (t : S)
    (self : net V) (x : V) (y : option V) :
  log (run N (NN_forward self x) t) `prefix_of` log (run N (BNN_forward self x y) t)
  ∧ (∀ e, out (run N (NN_forward self x) t) = Raised e →
          out (run N (BNN_forward self x y) t) = Raised e
          ∧ log (run N (BNN_forward self x y) t) = log (run N (NN_forward self x) t))
  ∧ (∀ logits, out (run N (NN_forward self x) t) = Returned logits →
       ∃ rest,
         calls_made (log (run N (BNN_forward self x y) t)) =
           calls_made (log (run N (NN_forward self x) t)) ++ tensor_shape logits 0 :: rest
         ∧ rest `prefix_of` [pyro_sample "obs" (Categorical logits) y]).
Proof.
  rewrite BNN_forward_bind. split; [apply log_bind_prefix |].
  rewrite run_bind. split.
  - intros e He. rewrite He. by split.
  - intros logits Hl. rewrite Hl. cbn [log]. rewrite calls_made_app.
    set (s' := final (run N (NN_forward self x) t)).
    next_call; [exists []; split; [reflexivity | apply prefix_nil] |].
    next_call; [exists []; split; [reflexivity | apply prefix_nil] |].
    next_call; [eexists; split; reflexivity |].
    next_call; eexists; split; reflexivity.
Qed.

(** X6. Every prior that [BNN.__init__] sets, whatever the library does, is
    a standard Normal expanded to the shape of the parameter it replaces and
    declared as one event of that many dimensions: the module is a
    [PyroLinear] the constructor built, and for its weight the shape is
    [out_features, in_features], for its bias [out_features]. *)
Theorem BNN_init_priors_match_layers {V S : Type} (N : library V S) (t : S)
    (i h o : Z) (m : V) (attr : string) (p : prior) :
  In (m, attr, p) (priors_set (log (run N (BNN_init i h o) t))) →
  prior_base p = Normal (Fin 0) (Fin 1)
  ∧ prior_to_event p = length (prior_expand p)
  ∧ ∃ in_features out_features,
      In (PyroLinear in_features out_features, m)
         (modules_built (log (run N (BNN_init i h o) t)))
      ∧ ((attr = "weight" ∧ prior_expand p = [out_features; in_features])
         ∨ (attr = "bias" ∧ prior_expand p = [out_features])).
Proof.
  unfold BNN_init.
  repeat (next_call; try (intros H; in_cases H; fail));
    intros H; in_cases H; injection H as <- <- <-;
    (split; [reflexivity |]); (split; [reflexivity |]);
    eexists _, _; (split; [simpl; eauto |]); simpl; eauto.
Qed.

Lemma BNN_init_priors_match_layers_witness :
  prior_base (Prior standard_normal [512; 784]%Z 2) = Normal (Fin 0) (Fin 1)
  ∧ prior_to_event (Prior standard_normal [512; 784]%Z 2)
    = length (prior_expand (Prior standard_normal [512; 784]%Z 2))
  ∧ ∃ in_features out_features,
      In (PyroLinear in_features out_features, 0)
         (modules_built (log (run handles (BNN_init (28 * 28) 512 10) 0)))
      ∧ (("weight" = "weight"
          ∧ prior_expand (Prior standard_normal [512; 784]%Z 2) = [out_features; in_features])
         ∨ ("weight" = "bias"
            ∧ prior_expand (Prior standard_normal [512; 784]%Z 2) = [out_features])).
Proof.
  apply (BNN_init_priors_match_layers handles 0 (28 * 28) 512 10 0 "weight"
           (Prior standard_normal [512; 784]%Z 2)).
  vm_compute. left. reflexivity.
Defined.

Lemma NN_init_modules {V S : Type} (N : library V S) (t : S) (i h o : Z) (nn : net V) :
  out (run N (NN_init i h o) t) = Returned nn →
  fst <$> modules_built (log (run N (NN_init i h o) t))
    = [Linear i h; Linear h o; ReLU; LogSoftmax 1]
  ∧ snd <$> modules_built (log (run N (NN_init i h o) t))
    = [fc1 nn; fc2 nn; relu nn; log_softmax nn]
  ∧ priors_set (log (run N (NN_init i h o) t)) = [].
Proof.
  unfold NN_init. repeat (next_call; [discriminate |]). intros [= <-]. by repeat split.
Qed.

Lemma BNN_init_modules {V S : Type} (N : library V S) (t : S) (i h o : Z) (bnn : net V) :
  out (run N (BNN_init i h o) t) = Returned bnn →
  torch_class ∘ fst <$> modules_built (log (run N (BNN_init i h o) t))
    = [Linear i h; Linear h o; ReLU; LogSoftmax 1]
  ∧ snd <$> modules_built (log (run N (BNN_init i h o) t))
    = [fc1 bnn; fc2 bnn; relu bnn; log_softmax bnn]
  ∧ length (priors_set (log (run N (BNN_init i h o) t))) = 4.
Proof.
  unfold BNN_init. repeat (next_call; [discriminate |]). intros [= <-]. by repeat split.
Qed.

(** X7. [BNN] is [NN] with priors: when the two constructors return, both
    have built, in this order, a linear layer from the input to the hidden
    size, a linear layer from the hidden to the output size, a ReLU and a
    LogSoftmax over dimension 1 ([PyroLinear] in place of [Linear] for
    [BNN]), and [fc1], [fc2], [relu] and [log_softmax] of the object are
    these four. [BNN.__init__] sets four priors, [NN.__init__] none. *)
Theorem BNN_is_NN_with_priors {V S T : Type} (N : library V S) (t : S)
    (M : library V T) (u : T) (i h o : Z) (nn bnn : net V) :
  out (run N (NN_init i h o) t) = Returned nn →
  out (run M (BNN_init i h o) u) = Returned bnn →
  fst <$> modules_built (log (run N (NN_init i h o) t))
    = [Linear i h; Linear h o; ReLU; LogSoftmax 1]
  ∧ torch_class ∘ fst <$> modules_built (log (run M (BNN_init i h o) u))
    = [Linear i h; Linear h o; ReLU; LogSoftmax 1]
  ∧ snd <$> modules_built (log (run N (NN_init i h o) t))
    = [fc1 nn; fc2 nn; relu nn; log_softmax nn]
  ∧ snd <$> modules_built (log (run M (BNN_init i h o) u))
    = [fc1 bnn; fc2 bnn; relu bnn; log_softmax bnn]
  ∧ priors_set (log (run N (NN_init i h o) t)) = []
  ∧ length (priors_set (log (run M (BNN_init i h o) u))) = 4.
Proof.
  intros Hn Hb.
  destruct (NN_init_modules N t i h o nn Hn) as (? & ? & ?).
  destruct (BNN_init_modules M u i h o bnn Hb) as (? & ? & ?).
  by repeat split.
Qed.

Lemma BNN_is_NN_with_priors_witness :
  fst <$> modules_built (log (run handles (NN_init (28 * 28) 512 10) 0))
    = [Linear (28 * 28) 512; Linear 512 10; ReLU; LogSoftmax 1]
  ∧ torch_class ∘ fst <$> modules_built (log (run handles (BNN_init (28 * 28) 512 10) 0))
    = [Linear (28 * 28) 512; Linear 512 10; ReLU; LogSoftmax 1]
  ∧ snd <$> modules_built (log (run handles (NN_init (28 * 28) 512 10) 0)) = [0; 1; 2; 3]
  ∧ snd <$> modules_built (log (run handles (BNN_init (28 * 28) 512 10) 0)) = [0; 1; 2; 3]
  ∧ priors_set (log (run handles (NN_init (28 * 28) 512 10) 0)) = []
  ∧ length (priors_set (log (run handles (BNN_init (28 * 28) 512 10) 0))) = 4.
Proof.
  apply (BNN_is_NN_with_priors handles 0 handles 0 (28 * 28) 512 10
           (Net 0 1 2 3) (Net 0 1 2 3)); reflexivity.
Defined.

(** ** The training cell *)

Section TrainingFacts.
Context {St : Type} (L : library pyfloat St) (svi_step : model pyfloat pyfloat).

Lemma training_loop_step (n : nat) (losses a b : list pyfloat) :
  training_loop svi_step (S n) losses a b =
  bind svi_step (fun loss =>
    Call (pyro_param "a" None) (fun pa =>
      Call (pyro_param "b" None) (fun pb =>
        training_loop svi_step n (losses ++ [loss]) (a ++ [item pa]) (b ++ [item pb])))).
Proof.
  cbn [training_loop]. unfold mbind, model_bind, param_get, call. cbn [bind].
  reflexivity.
Qed.

(** The three lists grow together, one item per step, and keep what they
    held. *)
Lemma training_loop_grows (n : nat) :
  ∀ (losses a b : list pyfloat) (s : St) (losses' a' b' : list pyfloat),
    out (run L (training_loop svi_step n losses a b) s) = Returned (losses', a', b') →
    (length losses' = length losses + n ∧ losses `prefix_of` losses')
    ∧ (length a' = length a + n ∧ a `prefix_of` a')
    ∧ (length b' = length b + n ∧ b `prefix_of` b').
Proof.
  induction n as [|n IH]; intros losses a b s losses' a' b'.
  - simpl. intros [= <- <- <-]. rewrite !Nat.add_0_r. by repeat split.
  - rewrite training_loop_step, run_bind.
    destruct (out (run L svi_step s)) as [loss|e]; [| discriminate].
    cbv zeta. cbn [out].
    generalize (final (run L svi_step s)). intros s1.
    next_call; [discriminate |]. next_call; [discriminate |].
    intros H. apply IH in H. rewrite !length_app in H. simpl in H.
    destruct H as ((H1 & P1) & (H2 & P2) & (H3 & P3)).
    repeat split; try lia; (etrans; [apply prefix_app_r; reflexivity | eassumption]).
Qed.

End TrainingFacts.

(** X8. When the training loop returns, each of the lists [losses], [a] and
    [b] holds exactly [num_steps] items, one per step, whatever the library
    and [svi.step()] did. *)
Theorem training_loop_lengths {S : Type} (L : library pyfloat S)
    (svi_step : model pyfloat pyfloat) (num_steps : nat) (s : S)
    (losses a b : list pyfloat) :
  out (run L (training_loop svi_step num_steps [] [] []) s) = Returned (losses, a, b) →
  length losses = num_steps ∧ length a = num_steps ∧ length b = num_steps.
Proof.
  intros H. apply training_loop_grows in H. simpl in H.
  by destruct H as ((? & _) & (? & _) & (? & _)).
Qed.

Lemma training_loop_lengths_witness :
  length [Fin 7; Fin 8] = 2 ∧ length [Fin 1; Fin 1] = 2 ∧ length [Fin 1; Fin 1] = 2.
Proof.
  apply (training_loop_lengths pyro guide 2 (fresh [Fin 7; Fin 8])
           [Fin 7; Fin 8] [Fin 1; Fin 1] [Fin 1; Fin 1]).
  reflexivity.
Defined.

Lemma raise_free_bind_bind {V A B C} (m : model V A) (f : A → model V B)
    (g : B → model V C) :
  raise_free m → (∀ a, raise_free (bind (f a) g)) → raise_free (bind (bind m f) g).
Proof.
  intros Hm Hf. induction m as [x|c k IH|c k IH|o kd c t IHt e IHe|e]; simpl in *; auto.
  destruct c; auto.
Qed.

(** The reads [a[-1]] and [b[-1]] after the loop cannot fail once the lists
    are not empty or a step is still to come. *)
Lemma training_reads_raise_free (svi_step : model pyfloat pyfloat) (n : nat) :
  raise_free svi_step →
  ∀ losses a b : list pyfloat,
    (n = 0 → a ≠ [] ∧ b ≠ []) →
    raise_free
      (bind (training_loop svi_step n losses a b)
         (fun '(losses, a, b) =>
            a_last ← last_item a; b_last ← last_item b; mret (a_last, b_last))).
Proof.
  intros Hstep. induction n as [|n IH]; intros losses a b Hne.
  - destruct (Hne eq_refl) as [Ha Hb]. simpl. unfold last_item.
    destruct (last a) as [x|] eqn:Ea; [| by apply last_None in Ea].
    simpl. destruct (last b) as [y|] eqn:Eb; [| by apply last_None in Eb].
    exact I.
  - rewrite training_loop_step. apply raise_free_bind_bind; [exact Hstep |].
    intros loss. cbn [bind raise_free]. intros pa pb. apply IH. intros _.
    split; intros E; by apply app_eq_nil in E as [_ ?].
Qed.

(** X9. With no step to make, the training cell fails at [a[-1]] with an
    IndexError as soon as the store is cleared. With one step or more, and a
    [svi.step()] that raises nothing of its own, the cell raises only what
    the library raises: the lists it reads are not empty. *)
Theorem training_cell_errors {St : Type} (L : library pyfloat St)
    (svi_step : model pyfloat pyfloat) (s s' : St) (n : nat) :
  lib_do L clear_param_store s = (None, s') →
  raise_free svi_step →
  run L (training_cell svi_step 0) s
    = Result [did clear_param_store None] (Raised IndexError) s'
  ∧ raise_free (training_cell svi_step (S n))
  ∧ propagates (run L (training_cell svi_step (S n)) s).
Proof.
  intros Hclear Hstep. split.
  - unfold training_cell. simpl. by rewrite Hclear.
  - assert (Hfree : raise_free (training_cell svi_step (S n))).
    { unfold training_cell. cbn [exec mbind model_bind bind raise_free].
      by apply (training_reads_raise_free svi_step (S n) Hstep [] [] []). }
    split; [exact Hfree | by apply raise_free_propagates].
Qed.

Lemma training_cell_errors_witness :
  run pyro (training_cell guide 0) (fresh [])
    = Result [did clear_param_store None] (Raised IndexError) (fresh [])
  ∧ raise_free (training_cell guide 1)
  ∧ propagates (run pyro (training_cell guide 1) (fresh [])).
Proof.
  apply (training_cell_errors pyro guide (fresh []) (fresh []) 0).
  - reflexivity.
  - simpl. auto.
Defined.

(** ** The letters cell *)

Lemma string_length_app (s t : string) :
  String.length (s +:+ t) = String.length s + String.length t.
Proof. induction s as [|c s IH]; simpl; [reflexivity | by rewrite IH]. Qed.

Lemma string_app_inv_tail (s1 s2 t : string) : s1 +:+ t = s2 +:+ t → s1 = s2.
Proof.
  revert s2. induction s1 as [|c s1 IH]; intros [|d s2] H.
  - reflexivity.
  - apply (f_equal String.length) in H. rewrite !string_length_app in H.
    cbn [String.length] in H. lia.
  - apply (f_equal String.length) in H. rewrite !string_length_app in H.
    cbn [String.length] in H. lia.
  - change (String c (s1 +:+ t) = String d (s2 +:+ t)) in H.
    injection H as -> H. f_equal. by apply IH.
Qed.

Lemma letter_path_unfold (l : string) : letter_path l = "data/not-mnist/" +:+ l +:+ ".png".
Proof. reflexivity. Qed.

Lemma letter_path_inj (l1 l2 : string) : letter_path l1 = letter_path l2 → l1 = l2.
Proof.
  rewrite !letter_path_unfold. intros H.
  apply (inj (String.app "data/not-mnist/")) in H. by apply string_app_inv_tail in H.
Qed.

(** X10. The comprehension opens, for a letter [l], the file
    [data/not-mnist/l.png]; different letters give different files, so the
    ten letters of the cell are read from ten files, one image per letter
    and in the order of [letters]. *)
Theorem letter_files_distinct :
  (∀ l, letter_path l = "data/not-mnist/" +:+ l +:+ ".png")
  ∧ (∀ l1 l2, letter_path l1 = letter_path l2 → l1 = l2)
  ∧ NoDup letter_paths
  ∧ length letter_paths = length letters
  ∧ (∀ i l, letters !! i = Some l → letter_paths !! i = Some (letter_path l)).
Proof.
  split; [exact letter_path_unfold |]. split; [exact letter_path_inj |].
  split; [| split].
  - unfold letter_paths. apply NoDup_fmap_2; [intros ??; apply letter_path_inj |].
    apply (bool_decide_unpack _). vm_compute. exact I.
  - unfold letter_paths. apply length_fmap.
  - intros i l H. unfold letter_paths. by rewrite list_lookup_fmap, H.
Qed.



(** The cell's own plan, and an index past the letters. *)
Lemma plot_plan_of_the_cell :
  plot_plan [0; 1; 2; 3] = [(1, Some "a"); (2, Some "b"); (3, Some "c"); (4, Some "d")]
  ∧ plot_plan [10] = [(1, None)].
Proof. split; reflexivity. Qed.

(** ** Normalisation of the letter images *)

Lemma max_pixel_None (l : list Q) : max_pixel l = None ↔ l = [].
Proof.
  destruct l as [|x l]; simpl; [done |].
  split; [| discriminate]. by destruct (max_pixel l).
Qed.

(** The maximum is a pixel of the image and no pixel is above it. *)
Lemma max_pixel_spec (l : list Q) (m : Q) :
  max_pixel l = Some m → In m l ∧ ∀ x, In x l → (x <= m)%Q.
Proof.
  revert m. induction l as [|y l IH]; intros m; simpl; [discriminate |].
  destruct (max_pixel l) as [m'|] eqn:E.
  - destruct (IH m' eq_refl) as [Hin Hle]. intros [= <-].
    destruct (Qle_bool m' y) eqn:Hc.
    + apply Qle_bool_iff in Hc. split; [by left |].
      intros x [<-|Hx]; [apply Qle_refl |]. eapply Qle_trans; [by apply Hle | exact Hc].
    + split; [by right |]. intros x [<-|Hx]; [| by apply Hle].
      apply Qlt_le_weak, Qnot_le_lt. intros Hn. apply Qle_bool_iff in Hn. congruence.
  - apply max_pixel_None in E as ->. intros [= <-]. split; [by left |].
    intros x [<-|[]]. apply Qle_refl.
Qed.

Lemma pixels_map {A B} (f : A → B) (img : list (list A)) :
  pixels (List.map (List.map f) img) = List.map f (pixels img).
Proof. unfold pixels. symmetry. apply concat_map. Qed.

(** X12. Normalisation brings an image into the unit range: for an image
    whose pixels are not negative and not all zero, as those of a picture
    are, every pixel of the result is a finite number between 0 and 1, some
    pixel is 1, and the rows keep their lengths. *)
Theorem normalise_image_range (img : image) :
  (∀ x, In x (pixels img) → (0 <= x)%Q) →
  (∃ x, In x (pixels img) ∧ (0 < x)%Q) →
  ∃ result,
    normalise_image img = inr result
    ∧ (∀ q, In q (pixels result) → ∃ r, q = Fin r ∧ (0 <= r)%Q ∧ (r <= 1)%Q)
    ∧ (∃ q, In q (pixels result) ∧ float_eqb q (Fin 1) = true)
    ∧ List.map (@length pyfloat) result = List.map (@length Q) img.
Proof.
  intros Hnonneg (x0 & Hx0 & Hpos). unfold normalise_image.
  destruct (max_pixel (pixels img)) as [m|] eqn:E;
    [| apply max_pixel_None in E; rewrite E in Hx0; destruct Hx0].
  destruct (max_pixel_spec _ _ E) as [Hin Hle].
  assert (Hm : (0 < m)%Q) by (eapply Qlt_le_trans; [exact Hpos | by apply Hle]).
  assert (Hz : Qeq_bool m 0 = false).
  { apply not_true_is_false. intros H. apply Qeq_bool_iff in H. rewrite H in Hm.
    by apply Qlt_irrefl in Hm. }
  eexists. split; [reflexivity |]. rewrite pixels_map. split; [| split].
  - intros q Hq. apply in_map_iff in Hq as (x & <- & Hx). unfold np_divide. rewrite Hz.
    exists (x / m)%Q. split; [reflexivity |]. split.
    + apply Qle_shift_div_l; [exact Hm |]. rewrite Qmult_0_l. by apply Hnonneg.
    + apply Qle_shift_div_r; [exact Hm |]. rewrite Qmult_1_l. by apply Hle.
  - exists (np_divide m m). split; [apply in_map_iff; by exists m |].
    unfold np_divide. rewrite Hz. simpl. apply Qeq_bool_iff. field.
    intros H. rewrite H in Hm. by apply Qlt_irrefl in Hm.
  - rewrite List.map_map. apply List.map_ext. intros row. apply List.length_map.
Qed.

Lemma normalise_image_range_witness :
  ∃ result,
    normalise_image [[0; 128]; [255; 64]]%Q = inr result
    ∧ (∀ q, In q (pixels result) → ∃ r, q = Fin r ∧ (0 <= r)%Q ∧ (r <= 1)%Q)
    ∧ (∃ q, In q (pixels result) ∧ float_eqb q (Fin 1) = true)
    ∧ List.map (@length pyfloat) result = List.map (@length Q) [[0; 128]; [255; 64]]%Q.
Proof.
  apply (normalise_image_range [[0; 128]; [255; 64]]%Q).
  - simpl. intros x [<-|[<-|[<-|[<-|[]]]]]; discriminate.
  - exists 255%Q. split; [simpl; auto | reflexivity].
Defined.

(** X13. The edges of the normalisation: an image without pixels has no
    maximum and the cell fails with ValueError; an image whose pixels are
    all zero, a black picture, is turned into NaN throughout. *)
Theorem normalise_image_edges (img : image) :
  (pixels img = [] → normalise_image img = inl ValueError)
  ∧ (pixels img ≠ [] → (∀ x, In x (pixels img) → (x == 0)%Q) →
     ∃ result, normalise_image img = inr result ∧ ∀ q, In q (pixels result) → q = NaN).
Proof.
  unfold normalise_image. split.
  - intros E. by rewrite E.
  - intros Hne Hzero. destruct (max_pixel (pixels img)) as [m|] eqn:E;
      [| by apply max_pixel_None in E].
    destruct (max_pixel_spec _ _ E) as [Hin _].
    eexists. split; [reflexivity |]. rewrite pixels_map.
    intros q Hq. apply in_map_iff in Hq as (x & <- & Hx). unfold np_divide.
    assert (Hm : Qeq_bool m 0 = true) by (apply Qeq_bool_iff; by apply Hzero).
    assert (Hx0 : Qeq_bool x 0 = true) by (apply Qeq_bool_iff; by apply Hzero).
    by rewrite Hm, Hx0.
Qed.
